(** * python-metrohash: the build script [setup.py] and the streaming
    hash engine it compiles.

    The first part embeds [setup.py] statement by statement: the module
    globals are a finite map from names to values, in which a name is
    unbound until the statement that assigns it has run, every statement
    is a function from states to a Python outcome (a state or a raised
    exception), and the host (interpreter, operating system, installed
    packages) is a record of the answers the script obtains from it.

    The second part is the hash engine. Its C++ sources are listed in
    [CXXSOURCES] but are not part of the sources embedded here, so the
    engine is modelled from the specification, with the mixing functions
    left as parameters. *)

From stdpp Require Import base option list strings gmap.
From Stdlib Require Import ZArith Lia.
From Equations Require Import Equations.

Local Open Scope string_scope.
Local Open Scope Z_scope.

(** ** Python outcomes *)

Module Py.

(** An exception raised by a Python operation. Every value of this type
    is an instance of Python's [Exception] class, which is what the two
    [except Exception] clauses of the script name; [ImportError] is kept
    apart because line 25 catches that class only. Interpreter exit
    requests ([KeyboardInterrupt], [SystemExit]) derive from
    [BaseException] alone and are not operations' results. *)
Inductive exn : Type :=
| ImportError (msg : string)
| OtherException (cls msg : string).

Inductive result (A : Type) : Type :=
| Ok (a : A)
| Raise (e : exn).
Arguments Ok {A} a.
Arguments Raise {A} e.

Definition bind {A B} (r : result A) (k : A -> result B) : result B :=
  match r with
  | Ok a => k a
  | Raise e => Raise e
  end.

(** [try: body / except Exception: handler] *)
Definition try_except {A} (body : result A) (handler : exn -> result A)
  : result A :=
  match body with
  | Ok a => Ok a
  | Raise e => handler e
  end.

(** [try: body / except ImportError: handler] *)
Definition try_except_ImportError {A} (body : result A)
    (handler : result A) : result A :=
  match body with
  | Ok a => Ok a
  | Raise (ImportError _) => handler
  | Raise e => Raise e
  end.

(** Reading a global name that no statement has bound yet. *)
Definition load {A} (name : string) (v : option A) : result A :=
  match v with
  | Some a => Ok a
  | None => Raise (OtherException "NameError" name)
  end.

Definition is_ok {A} (r : result A) : bool :=
  match r with Ok _ => true | Raise _ => false end.

End Py.

Import Py.

Declare Scope py_scope.
Delimit Scope py_scope with py.
Notation "x <- c1 ;; c2" := (Py.bind c1 (fun x => c2))
  (at level 100, c1 at next level, right associativity) : py_scope.
Local Open Scope py_scope.

(** ** The host of the build script *)

(** What [setup.py] asks of its surroundings. [cpuinfo_flags] is the
    outcome of the body of the first [try] (lines 14 to 16): importing
    [cpuinfo], calling [get_cpu_info()] and subscripting the answer with
    ["flags"]. [cython_import] is the outcome of line 22. [open_rb] is
    opening a file in mode ["rb"] and reading all of it (lines 144 and
    145); [bytes_decode] is [bytes.decode]. [super_get_tag] is what
    [bdist_wheel.get_tag] returns. [imports] is the outcome of the
    unguarded imports of lines 3 to 11. [stdout n] is the outcome of the
    script's [n]-th write to standard output, counted from zero: a
    [print] raises when the stream is closed or cannot encode the
    text. *)
Record Host : Type := mkHost {
  cpuinfo_flags : result (list string);
  cython_import : result unit;
  os_name : string;
  struct_calcsize : string -> Z;
  os_environ : gmap string string;
  platform_machine : string;
  super_get_tag : string * string * string;
  module_dirname : string;
  path_join : string -> string -> string;
  open_rb : string -> result (list Byte.byte);
  bytes_decode : list Byte.byte -> string -> result string;
  imports : result unit;
  stdout : nat -> result unit
}.

(** The questions a statement puts to the host, in the order asked. *)
Inductive HostCall : Type :=
| AskCpuinfo
| AskCython
| AskOsName
| AskCalcsize
| AskEnviron
| AskMachine
| AskFile.

Global Instance HostCall_eq_dec : EqDecision HostCall.
Proof. solve_decision. Defined.

(** ** Functions and classes of the script *)

(** Lines 40 to 42. *)
Definition get_system_bits (h : Host) : Z :=
  struct_calcsize h "P" * 8.

(** Lines 35 to 37, [BinaryDistribution.is_pure]. *)
Definition is_pure : bool := false.

(** Python's [str.startswith]. *)
Fixpoint startswith (s p : string) {struct p} : bool :=
  match p with
  | EmptyString => true
  | String c p' =>
      match s with
      | EmptyString => false
      | String d s' => if Ascii.eqb c d then startswith s' p' else false
      end
  end.

(** Lines 45 to 53, [bdist_wheel_abi3.get_tag]; the superclass method is
    the host's [super_get_tag]. *)
Definition get_tag (h : Host) : string * string * string :=
  let '(python, abi, plat) := super_get_tag h in
  if startswith python "cp" then ("cp36", "abi3", plat)
  else (python, abi, plat).

(** The literal of lines 139 to 141: two newlines and four spaces. *)
Definition _long_desc : string :=
  String (Ascii.ascii_of_nat 10) (String (Ascii.ascii_of_nat 10) "    ").

(** Lines 138 to 147, in the outcome monad: the function's own result is
    an outcome, so that an exception leaving it would show as [Raise]. *)
Definition get_long_description (h : Host) (relpath encoding : string)
  : result string :=
  let fname := path_join h (module_dirname h) relpath in
  try_except
    (fh <- open_rb h fname ;;
     bytes_decode h fh encoding)
    (fun _ => Ok _long_desc).

(** ** Values and module globals *)

(** [Extension(...)] of lines 122 to 131. *)
Record Extension : Type := mkExtension {
  ext_name : string;
  ext_sources : list string;
  ext_depends : list string;
  ext_language : string;
  extra_compile_args : list string;
  include_dirs : list string;
  define_macros : list (string * string);
  py_limited_api : bool
}.

(** The values the script binds to its global names. *)
Inductive value : Type :=
| VBool (b : bool)
| VInt (n : Z)
| VStr (s : string)
| VList (l : list string)
| VDict (d : gmap string string)
| VExts (l : list Extension).

(** The keyword arguments of the [setup(...)] call of lines 150 to 188
    that the script computes (the others are literals). *)
Record SetupCall : Type := mkSetupCall {
  kw_version : string;
  kw_download_url : string;
  kw_cmdclass : gmap string string;
  kw_ext_modules : list Extension;
  kw_long_description : string
}.

(** The module dictionary, the questions put to the host so far, the
    [setup(...)] call once it has been made, and the number of writes to
    standard output so far. *)
Record State : Type := mkState {
  globals : gmap string value;
  asked : list HostCall;
  setup_call : option SetupCall;
  printed : nat
}.

Definition initial : State := mkState ∅ [] None 0.

Definition assign (x : string) (v : value) (st : State) : State :=
  mkState (<[x:=v]> (globals st)) (asked st) (setup_call st) (printed st).

Definition ask (c : HostCall) (st : State) : State :=
  mkState (globals st) (asked st ++ [c]) (setup_call st) (printed st).

(** One more write to standard output has been made. *)
Definition tick (st : State) : State :=
  mkState (globals st) (asked st) (setup_call st) (S (printed st)).

(** [print(...)], once its arguments are evaluated: the write succeeds
    or raises, as the host has it; it binds nothing. *)
Definition print (h : Host) (st : State) : result State :=
  _ <- stdout h (printed st) ;; Ok (tick st).

Definition name (st : State) (x : string) : result value :=
  load x (globals st !! x).

Definition TypeError (msg : string) : exn := OtherException "TypeError" msg.

(** Truth value of an object, as [if] and [and] test it. *)
Definition truthy (v : value) : bool :=
  match v with
  | VBool b => b
  | VInt n => negb (n =? 0)
  | VStr s => negb (String.eqb s EmptyString)
  | VList l => negb (bool_decide (l = []))
  | VDict d => negb (bool_decide (d = ∅))
  | VExts l => match l with [] => false | _ => true end
  end.

(** [a == b] on the values that the script compares. *)
Definition py_eq (a b : value) : bool :=
  match a, b with
  | VBool x, VBool y => bool_decide (x = y)
  | VInt x, VInt y => x =? y
  | VBool x, VInt y => (if x then 1 else 0) =? y
  | VInt x, VBool y => x =? (if y then 1 else 0)
  | VStr x, VStr y => String.eqb x y
  | VList x, VList y => bool_decide (x = y)
  | VDict x, VDict y => bool_decide (x = y)
  | _, _ => false
  end.

(** [x in c] for a string [x]: membership in a list, key of a dict,
    substring of a string; other objects are not containers. *)
Definition py_in (x : string) (c : value) : result bool :=
  match c with
  | VList l => Ok (bool_decide (x ∈ l))
  | VDict d => Ok (bool_decide (is_Some (d !! x)))
  | VStr s => Ok (match String.index 0 x s with Some _ => true | None => false end)
  | _ => Raise (TypeError "argument is not iterable")
  end.

(** [a and b] evaluates [b] only when [a] is true. *)
Definition py_and (a b : result bool) : result bool :=
  x <- a ;; if x then b else Ok false.

(** [CXXFLAGS.extend(more)], and [append] as the one-element case. The
    list object is mutated in place; no other name refers to it until
    line 127, after the last mutation, so rebinding the name models it. *)
Definition extend (x : string) (more : list string) (st : State)
  : result State :=
  v <- name st x ;;
  match v with
  | VList l => Ok (assign x (VList (l ++ more)) st)
  | _ => Raise (OtherException "AttributeError" "extend")
  end.

Definition append (x : string) (item : string) (st : State) : result State :=
  extend x [item] st.

(** The truth value of a global, and the test [x == v] on a global. *)
Definition test (st : State) (x : string) : result bool :=
  v <- name st x ;; Ok (truthy v).

Definition name_eq (st : State) (x : string) (v : value) : result bool :=
  w <- name st x ;; Ok (py_eq w v).

(** ** The statements of the script

    [import], [def] and [class] statements bind names to modules,
    functions and classes; they are embedded as the definitions above.
    The imports of lines 3 to 11 are not guarded and can raise. [print]
    evaluates its arguments and writes to standard output; it binds
    nothing and can raise. *)

Definition Stmt : Type := Host -> State -> result State.

(** Lines 3 to 11. *)
Definition stmt_imports : Stmt := fun h st =>
  _ <- imports h ;; Ok st.

(** Lines 13 to 19. The handler prints the exception, then binds the
    empty dict. *)
Definition stmt_CPU_FLAGS : Stmt := fun h st =>
  let st := ask AskCpuinfo st in
  try_except
    (flags <- cpuinfo_flags h ;;
     Ok (assign "CPU_FLAGS" (VList flags) st))
    (fun exc =>
       st <- print h st ;;
       Ok (assign "CPU_FLAGS" (VDict ∅) st)).

(** Lines 21 to 26. A successful import also binds [build_ext]. *)
Definition stmt_USE_CYTHON : Stmt := fun h st =>
  let st := ask AskCython st in
  try_except_ImportError
    (_ <- cython_import h ;;
     Ok (assign "USE_CYTHON" (VBool true)
           (assign "build_ext" (VStr "Cython.Distutils.build_ext") st)))
    (Ok (assign "USE_CYTHON" (VBool false) st)).

(** Line 56. *)
Definition stmt_SYSTEM : Stmt := fun h st =>
  Ok (assign "SYSTEM" (VStr (os_name h)) (ask AskOsName st)).

(** Line 57. *)
Definition stmt_BITS : Stmt := fun h st =>
  Ok (assign "BITS" (VInt (get_system_bits h)) (ask AskCalcsize st)).

(** Line 58. *)
Definition stmt_HAVE_SSE42 : Stmt := fun h st =>
  flags <- name st "CPU_FLAGS" ;;
  b <- py_in "sse4_2" flags ;;
  Ok (assign "HAVE_SSE42" (VBool b) st).

(** Line 59. *)
Definition stmt_HAVE_AES : Stmt := fun h st =>
  flags <- name st "CPU_FLAGS" ;;
  b <- py_in "aes" flags ;;
  Ok (assign "HAVE_AES" (VBool b) st).

(** Line 61. *)
Definition stmt_CXXFLAGS : Stmt := fun h st =>
  Ok (assign "CXXFLAGS" (VList []) st).

(** Lines 63 to 65: three [print]s, the last one listing [os.environ]. *)
Definition stmt_print_system : Stmt := fun h st =>
  _ <- name st "SYSTEM" ;;
  _ <- name st "BITS" ;;
  st <- print h st ;;
  _ <- name st "CPU_FLAGS" ;;
  st <- print h st ;;
  print h (ask AskEnviron st).

(** Lines 67 to 76. *)
Definition stmt_optimize : Stmt := fun h st =>
  nt <- name_eq st "SYSTEM" (VStr "nt") ;;
  if nt then extend "CXXFLAGS" ["/O2"] st
  else extend "CXXFLAGS"
         ["-O3"; "-Wno-unused-value"; "-Wno-unused-function"] st.

(** Lines 82 and 83. The default, [platform.machine()], is an argument
    and so is evaluated before [os.environ.get] is called. *)
Definition stmt_TARGET_ARCH : Stmt := fun h st =>
  let machine := platform_machine h in
  let st := ask AskEnviron (ask AskMachine st) in
  let st :=
    assign "TARGET_ARCH"
      (VStr (default machine (os_environ h !! "AUDITWHEEL_ARCH"))) st in
  print h st.

(** The condition shared by lines 85 and 92. *)
Definition accel_condition (st : State) (have : string) : result bool :=
  py_and (test st have)
    (py_and (name_eq st "TARGET_ARCH" (VStr "x86_64"))
       (name_eq st "BITS" (VInt 64))).

(** Lines 85 to 90. *)
Definition stmt_enable_SSE42 : Stmt := fun h st =>
  go <- accel_condition st "HAVE_SSE42" ;;
  if go then
    st <- print h st ;;
    nt <- name_eq st "SYSTEM" (VStr "nt") ;;
    if nt then append "CXXFLAGS" "/D__SSE4_2__" st
    else append "CXXFLAGS" "-msse4.2" st
  else Ok st.

(** Lines 92 to 97. *)
Definition stmt_enable_AES : Stmt := fun h st =>
  go <- accel_condition st "HAVE_AES" ;;
  if go then
    st <- print h st ;;
    nt <- name_eq st "SYSTEM" (VStr "nt") ;;
    if nt then append "CXXFLAGS" "/D__AES__" st
    else append "CXXFLAGS" "-maes" st
  else Ok st.

(** Lines 99 to 110. *)
Definition CXXHEADERS : list string :=
  ["src/metro.h"; "src/metrohash.h"; "src/metrohash128.h";
   "src/metrohash128crc.h"; "src/metrohash64.h"; "src/platform.h"].

Definition CXXSOURCES : list string :=
  ["src/metrohash64.cc"; "src/metrohash128.cc"].

Definition stmt_CXX_files : Stmt := fun h st =>
  Ok (assign "CXXSOURCES" (VList CXXSOURCES)
        (assign "CXXHEADERS" (VList CXXHEADERS) st)).

(** Lines 112 to 119. Classes are recorded in the dict by their names. *)
Definition stmt_CMDCLASS : Stmt := fun h st =>
  let st := assign "CMDCLASS" (VDict {["bdist_wheel" := "bdist_wheel_abi3"]}) st in
  cy <- test st "USE_CYTHON" ;;
  if cy then
    st <- print h st ;;
    b <- name st "build_ext" ;;
    match b with
    | VStr cls =>
        Ok (assign "SRC_EXT" (VStr ".pyx")
              (assign "CMDCLASS"
                 (VDict (<["build_ext" := cls]>
                           {["bdist_wheel" := "bdist_wheel_abi3"]})) st))
    | _ => Raise (TypeError "build_ext")
    end
  else
    st <- print h st ;;
    Ok (assign "SRC_EXT" (VStr ".cpp") st).

(** Lines 121 to 132. *)
Definition stmt_EXT_MODULES : Stmt := fun h st =>
  srcs <- name st "CXXSOURCES" ;;
  ext <- name st "SRC_EXT" ;;
  hdrs <- name st "CXXHEADERS" ;;
  flags <- name st "CXXFLAGS" ;;
  match srcs, ext, hdrs, flags with
  | VList srcs, VStr ext, VList hdrs, VList flags =>
      Ok (assign "EXT_MODULES"
            (VExts [mkExtension "metrohash"
                      (srcs ++ [String.append "src/metrohash" ext])
                      hdrs "c++" flags ["src"]
                      [("Py_LIMITED_API", "0x03060000")] true]) st)
  | _, _, _, _ => Raise (TypeError "Extension")
  end.

(** Lines 134 and 135. *)
Definition VERSION : string := "0.3.4".
Definition URL : string := "https://github.com/escherba/python-metrohash".

Definition stmt_VERSION_URL : Stmt := fun h st =>
  Ok (assign "URL" (VStr URL) (assign "VERSION" (VStr VERSION) st)).

(** Lines 150 to 188: the keyword arguments are evaluated, among them
    [get_long_description("README.md")], and [setup] is called. *)
Definition stmt_setup : Stmt := fun h st =>
  version <- name st "VERSION" ;;
  url <- name st "URL" ;;
  cmdclass <- name st "CMDCLASS" ;;
  exts <- name st "EXT_MODULES" ;;
  descr <- get_long_description h "README.md" "utf-8" ;;
  match version, url, cmdclass, exts with
  | VStr version, VStr url, VDict cmdclass, VExts exts =>
      Ok (mkState (globals st) (asked st ++ [AskFile])
            (Some (mkSetupCall version
                     (String.append url (String.append "/tarball/master/" version))
                     cmdclass exts descr))
            (printed st))
  | _, _, _, _ => Raise (TypeError "setup")
  end.

(** The module body from line 13 on, top to bottom. *)
Definition setup_py : list Stmt :=
  [stmt_CPU_FLAGS; stmt_USE_CYTHON; stmt_SYSTEM; stmt_BITS;
   stmt_HAVE_SSE42; stmt_HAVE_AES; stmt_CXXFLAGS; stmt_print_system;
   stmt_optimize; stmt_TARGET_ARCH; stmt_enable_SSE42; stmt_enable_AES;
   stmt_CXX_files; stmt_CMDCLASS; stmt_EXT_MODULES; stmt_VERSION_URL;
   stmt_setup].

Fixpoint exec (body : list Stmt) (h : Host) (st : State) : result State :=
  match body with
  | [] => Ok st
  | s :: rest => st' <- s h st ;; exec rest h st'
  end.

(** The whole script: the imports, then the body. The run ends when
    [setup] is called; what setuptools does then is not part of the
    script. *)
Definition run (h : Host) : result State :=
  st <- stmt_imports h initial ;; exec setup_py h st.

(** The compile flags the build ends with, when it does end. *)
Definition built_flags (h : Host) : option (list string) :=
  match run h with
  | Ok st =>
      match globals st !! "CXXFLAGS" with
      | Some (VList l) => Some l
      | _ => None
      end
  | Raise _ => None
  end.

(** ** The outcome of the script in closed form *)

(** The value line 16 or line 19 binds to [CPU_FLAGS]. *)
Definition detected (h : Host) : value :=
  match cpuinfo_flags h with
  | Ok flags => VList flags
  | Raise _ => VDict ∅
  end.

(** Whether the capability query of the build reported the flag [x]. *)
Definition cpu_has (h : Host) (x : string) : bool :=
  match cpuinfo_flags h with
  | Ok flags => bool_decide (x ∈ flags)
  | Raise _ => false
  end.

Definition target_arch (h : Host) : string :=
  default (platform_machine h) (os_environ h !! "AUDITWHEEL_ARCH").

Definition is_nt (sys : string) : bool := String.eqb sys "nt".

Definition base_flags (sys : string) : list string :=
  if is_nt sys then ["/O2"]
  else ["-O3"; "-Wno-unused-value"; "-Wno-unused-function"].

Definition accel (have : bool) (arch : string) (bits : Z) : bool :=
  have && String.eqb arch "x86_64" && (bits =? 64).

Definition accel_flag (msvc gcc : string) (have : bool) (sys arch : string)
    (bits : Z) : list string :=
  if accel have arch bits then [if is_nt sys then msvc else gcc] else [].

Definition sse42_flags (h : Host) : list string :=
  accel_flag "/D__SSE4_2__" "-msse4.2" (cpu_has h "sse4_2")
    (os_name h) (target_arch h) (get_system_bits h).

Definition aes_flags (h : Host) : list string :=
  accel_flag "/D__AES__" "-maes" (cpu_has h "aes")
    (os_name h) (target_arch h) (get_system_bits h).

Definition expected_flags (h : Host) : list string :=
  (([] ++ base_flags (os_name h)) ++ sse42_flags h) ++ aes_flags h.

(** The four flags that switch an accelerated code path on. *)
Definition acceleration_flags : list string :=
  ["-msse4.2"; "/D__SSE4_2__"; "-maes"; "/D__AES__"].

Definition accelerated (flags : list string) : bool :=
  bool_decide (Exists (fun f => f ∈ acceleration_flags) flags).

(** The import of line 22 lets the script go on. *)
Definition cython_passes (h : Host) : bool :=
  match cython_import h with
  | Raise (OtherException _ _) => false
  | _ => true
  end.

(** The capability query raised, so that line 18 prints. *)
Definition query_failed (h : Host) : bool :=
  match cpuinfo_flags h with
  | Ok _ => false
  | Raise _ => true
  end.

(** The conditions of lines 85 and 92 on the host's answers. *)
Definition sse42_enabled (h : Host) : bool :=
  accel (cpu_has h "sse4_2") (target_arch h) (get_system_bits h).

Definition aes_enabled (h : Host) : bool :=
  accel (cpu_has h "aes") (target_arch h) (get_system_bits h).

(** The number of [print]s on the way to the [setup] call: line 18 after
    a failed query, lines 63, 64, 65 and 83, lines 86 and 93 when their
    path is enabled, and line 114 or line 118. *)
Definition prints_needed (h : Host) : nat :=
  (if query_failed h then 1 else 0) + 4
  + (if sse42_enabled h then 1 else 0)
  + (if aes_enabled h then 1 else 0) + 1.

(** The first [n] writes to a stream succeed. *)
Fixpoint writes_ok (out : nat -> result unit) (n : nat) : bool :=
  match n with
  | O => true
  | S k => writes_ok out k && is_ok (out k)
  end.

Definition stdout_ok (h : Host) (n : nat) : bool := writes_ok (stdout h) n.

(** The host lets the script reach the [setup] call. *)
Definition completes (h : Host) : bool :=
  is_ok (imports h) && cython_passes h && stdout_ok h (prints_needed h).

(** ** The streaming hash engine *)

Module MetroHash.

(** Modelled from the spec: the digest families of sections 4.2 to 4.4,
    whose C++ sources ([src/metrohash64.cc], [src/metrohash128.cc]) are
    not among the embedded sources. *)
Inductive Variant : Type := Hash64 | Hash128 | Hash128Accelerated.

(** Modelled from the spec: the engine states of section 4.2. *)
Inductive Phase : Type := Empty | Accumulating | Finalized.

(** Modelled from the spec: the internal mixing path chosen at
    construction (section 3, Engine State, item d). *)
Inductive Path : Type := Software | Accelerated.

(** Modelled from the spec: the Feature Dispatcher's fixed set of
    booleans (section 4.5): a SIMD extension for general mixing and a
    CRC instruction for the accelerated family. *)
Record Capabilities : Type := mkCapabilities {
  has_simd : bool;
  has_crc : bool
}.

(** Modelled from the spec: the misuse errors of section 7. *)
Inductive Misuse : Type := UpdateAfterFinalize | FinalizeTwice.

Global Instance Phase_eq_dec : EqDecision Phase.
Proof. solve_decision. Defined.

(** Modelled from the spec: the selection policy of section 4.5, the
    accelerated path only if the instruction it needs is present. *)
Definition select_path (caps : Capabilities) (v : Variant) : Path :=
  match v with
  | Hash128Accelerated => if has_crc caps then Accelerated else Software
  | _ => if has_simd caps then Accelerated else Software
  end.

(** Modelled from the spec: the instruction-set extensions the
    accelerated paths need (section 4.5): a SIMD extension for general
    mixing, a CRC instruction for the accelerated family. *)
Inductive Instruction : Type := Simd | Crc.

Definition required (v : Variant) : Instruction :=
  match v with
  | Hash128Accelerated => Crc
  | _ => Simd
  end.

(** The instruction is present on the executing CPU. *)
Definition present (caps : Capabilities) (i : Instruction) : bool :=
  match i with
  | Simd => has_simd caps
  | Crc => has_crc caps
  end.

(** Modelled from the spec: build-time availability (section 4.5), the
    accelerated paths the binary was built with. *)
Record Build : Type := mkBuild {
  built_simd : bool;
  built_crc : bool
}.

Definition compiled_in (b : Build) (i : Instruction) : bool :=
  match i with
  | Simd => built_simd b
  | Crc => built_crc b
  end.

(** A binary built with every accelerated path, and one built with
    none. *)
Definition accelerated_build : Build := mkBuild true true.

(** Modelled from the spec: the Feature Dispatcher of a binary built as
    [b] on a CPU with capabilities [caps] (section 4.5): the accelerated
    path only if it was built in and its instruction is present at run
    time, the software path otherwise. *)
Definition dispatch (b : Build) (caps : Capabilities) (v : Variant) : Path :=
  if compiled_in b (required v) && present caps (required v)
  then Accelerated else Software.

(** Modelled from the spec: the block size of section 3. *)
Definition block_size : nat := 32.

Section Engine.

(** The mixing functions are the specification's open question
    (section 9): the lane type, the seeding of the lanes, the
    absorption of one full block, and the finalization from lanes,
    residual bytes and total length to the digest bytes. *)
Variable Lanes : Type.
Variable seed_lanes : Variant -> Z -> Lanes.
Variable absorb : Variant -> Path -> Lanes -> list Byte.byte -> Lanes.
Variable finish :
  Variant -> Path -> Lanes -> list Byte.byte -> Z -> list Byte.byte.

(** Modelled from the spec: the Engine State of section 3. *)
Record Engine : Type := mkEngine {
  variant : Variant;
  path : Path;
  lanes : Lanes;
  residual : list Byte.byte;
  total_length : Z;
  phase : Phase
}.

(** Modelled from the spec: construction, [(seed, variant) -> Engine],
    with the dispatcher consulted once (sections 2 and 6). *)
Definition new (caps : Capabilities) (seed : Z) (v : Variant) : Engine :=
  mkEngine v (select_path caps v) (seed_lanes v seed) [] 0 Empty.

(** Modelled from the spec: every full block is consumed by the
    mixer, and the 0 to 31 bytes that remain are the residual
    (section 4.2, Update). *)
Equations? consume (v : Variant) (p : Path) (l : Lanes)
    (data : list Byte.byte) : Lanes * list Byte.byte
    by wf (length data) lt :=
  consume v p l data with decide (block_size <= length data)%nat => {
    | left _ =>
        consume v p (absorb v p l (take block_size data))
          (drop block_size data);
    | right _ => (l, data) }.
Proof. rewrite length_drop. unfold block_size in *. lia. Qed.

(** Modelled from the spec: [update(engine, byteChunk)] of section 6.
    The engine is a mutable struct: the call returns the engine as it
    is after the call, and the error it reported, if any. *)
Definition update (e : Engine) (chunk : list Byte.byte)
  : Engine * option Misuse :=
  match phase e with
  | Finalized => (e, Some UpdateAfterFinalize)
  | _ =>
      let '(l, r) := consume (variant e) (path e) (lanes e)
                       (residual e ++ chunk) in
      (mkEngine (variant e) (path e) l r
         (total_length e + Z.of_nat (length chunk)) Accumulating,
       None)
  end.

(** Modelled from the spec: [finalize(engine)] of section 6. The
    engine transitions to [Finalized]; finalizing again without a
    reset is the other misuse error of section 7. *)
Definition finalize (e : Engine) : Engine * (Misuse + list Byte.byte) :=
  match phase e with
  | Finalized => (e, inl FinalizeTwice)
  | _ =>
      (mkEngine (variant e) (path e) (lanes e) (residual e)
         (total_length e) Finalized,
       inr (finish (variant e) (path e) (lanes e) (residual e)
              (total_length e)))
  end.

(** Modelled from the spec: [reset(engine, newSeed)] of section 6. *)
Definition reset (e : Engine) (new_seed : Z) : Engine :=
  mkEngine (variant e) (path e) (seed_lanes (variant e) new_seed)
    [] 0 Empty.

(** Feeding chunks by sequential [update] calls, collecting the
    errors reported on the way. *)
Fixpoint feed (e : Engine) (chunks : list (list Byte.byte))
  : Engine * list Misuse :=
  match chunks with
  | [] => (e, [])
  | c :: rest =>
      let '(e1, err) := update e c in
      let '(e2, errs) := feed e1 rest in
      (e2, (option_list err ++ errs)%list)
  end.

(** Modelled from the spec: the one-shot [hash(bytes, seed, variant)]
    of section 6, construct, update, finalize. *)
Definition hash (caps : Capabilities) (bytes : list Byte.byte)
    (seed : Z) (v : Variant) : Misuse + list Byte.byte :=
  let '(e, err) := update (new caps seed v) bytes in
  match err with
  | Some m => inl m
  | None => snd (finalize e)
  end.

(** Modelled from the spec: construction and one-shot hashing in a
    binary built as [b] (sections 4.5 and 6); [new] and [hash] are the
    binary built with every accelerated path. *)
Definition construct (b : Build) (caps : Capabilities) (seed : Z)
    (v : Variant) : Engine :=
  mkEngine v (dispatch b caps v) (seed_lanes v seed) [] 0 Empty.

Definition hash_built (b : Build) (caps : Capabilities)
    (bytes : list Byte.byte) (seed : Z) (v : Variant)
  : Misuse + list Byte.byte :=
  let '(e, err) := update (construct b caps seed v) bytes in
  match err with
  | Some m => inl m
  | None => snd (finalize e)
  end.

(** The engine [e] has taken in exactly the bytes [data] since it was
    seeded with [seed]; the invariant of the streaming proofs. *)
Definition absorbed (seed : Z) (e : Engine) (data : list Byte.byte) : Prop :=
  consume (variant e) (path e) (seed_lanes (variant e) seed) data
  = (lanes e, residual e) /\
  total_length e = Z.of_nat (length data) /\
  phase e <> Finalized.

End Engine.

End MetroHash.

(** ** Example hosts *)

(** [posixpath.join] on two components. *)
Definition posix_join (a b : string) : string :=
  if startswith b "/" then b
  else if String.eqb a EmptyString then b
  else String.append a (String.append "/" b).

(** A codec table with the one entry the examples need: ["utf-8"]
    restricted to the bytes below 128, which decode to themselves. *)
Definition decode_ascii (bytes : list Byte.byte) (encoding : string)
  : result string :=
  if String.eqb encoding "utf-8" then
    if forallb (fun b => (Byte.to_N b <? 128)%N) bytes
    then Ok (String.string_of_list_byte bytes)
    else Raise (OtherException "UnicodeDecodeError" "utf-8")
  else Raise (OtherException "LookupError" encoding).

Definition readme_only (fname : string) : result (list Byte.byte) :=
  if String.eqb fname "/repo/README.md"
  then Ok (String.list_byte_of_string "# MetroHash")
  else Raise (OtherException "FileNotFoundError" fname).

(** A 64-bit Linux machine with SSE4.2 and AES, CPython, no Cython. *)
Definition linux_host : Host :=
  mkHost (Ok ["fpu"; "sse4_2"; "aes"]) (Raise (ImportError "Cython"))
    "posix" (fun _ => 8) ∅ "x86_64"
    ("cp311", "cp311", "linux_x86_64") "/repo" posix_join
    readme_only decode_ascii (Ok ()) (fun _ => Ok ()).

(** The same machine building for [aarch64] under cibuildwheel. *)
Definition cross_host : Host :=
  mkHost (Ok ["fpu"; "sse4_2"; "aes"]) (Ok ())
    "posix" (fun _ => 8) {["AUDITWHEEL_ARCH" := "aarch64"]} "x86_64"
    ("cp311", "cp311", "linux_aarch64") "/repo" posix_join
    readme_only decode_ascii (Ok ()) (fun _ => Ok ()).

(** A machine on which [cpuinfo] is not installed, running PyPy. *)
Definition bare_host : Host :=
  mkHost (Raise (ImportError "cpuinfo")) (Raise (ImportError "Cython"))
    "posix" (fun _ => 8) ∅ "x86_64"
    ("pp39", "pypy39_pp73", "linux_x86_64") "/repo" posix_join
    (fun fname => Raise (OtherException "FileNotFoundError" fname))
    decode_ascii (Ok ()) (fun _ => Ok ()).

(** The state a run ends in, for hosts on which it ends. *)
Definition final_state (h : Host) : State :=
  match run h with
  | Ok st => st
  | Raise _ => initial
  end.

(** ** Notions the properties are stated with *)

(** C2 as it is written: a capability query that raises is caught, the
    empty collection is bound and the script goes on. *)
Definition failed_query_never_stops (h : Host) : Prop :=
  forall e st,
    cpuinfo_flags h = Raise e ->
    exists st',
      stmt_CPU_FLAGS h st = Ok st' /\
      name st' "CPU_FLAGS" = Ok (VDict ∅).

(** The exception [e] that stopped a run came from the host: from the
    imports of lines 3 to 11, from the Cython import as something other
    than [ImportError], or from one of the writes to standard output. *)
Definition stopped_by (h : Host) (e : exn) : Prop :=
  imports h = Raise e \/
  (exists c m, e = OtherException c m /\ cython_import h = Raise e) \/
  exists k, (k < prints_needed h)%nat /\ stdout h k = Raise e.

(** What a completed run leaves behind. *)
Record Completed (h : Host) (st : State) : Prop := mkCompleted {
  done_CPU_FLAGS : name st "CPU_FLAGS" = Ok (detected h);
  done_HAVE_SSE42 : name st "HAVE_SSE42" = Ok (VBool (cpu_has h "sse4_2"));
  done_HAVE_AES : name st "HAVE_AES" = Ok (VBool (cpu_has h "aes"));
  done_SYSTEM : name st "SYSTEM" = Ok (VStr (os_name h));
  done_BITS : name st "BITS" = Ok (VInt (get_system_bits h));
  done_TARGET_ARCH : name st "TARGET_ARCH" = Ok (VStr (target_arch h));
  done_CXXFLAGS : name st "CXXFLAGS" = Ok (VList (expected_flags h));
  done_asked :
    asked st =
      [AskCpuinfo; AskCython; AskOsName; AskCalcsize; AskEnviron;
       AskMachine; AskEnviron; AskFile]
}.

(** How often the capability query has been put to the host. *)
Definition queries (st : State) : nat :=
  count_occ HostCall_eq_dec (asked st) AskCpuinfo.

(** Going from [st] to [st'] puts no capability query and leaves the
    bindings of the names [xs] as they are. *)
Definition frame (xs : list string) (st st' : State) : Prop :=
  queries st' = queries st /\
  forall x, x ∈ xs -> globals st' !! x = globals st !! x.

(** The three names the capability detection binds. *)
Definition capability_names : list string :=
  ["CPU_FLAGS"; "HAVE_SSE42"; "HAVE_AES"].

(** The statements of the script other than the query of lines 13 to 19
    and the two assignments of lines 58 and 59. *)
Definition other_statements : list Stmt :=
  [stmt_USE_CYTHON; stmt_SYSTEM; stmt_BITS; stmt_CXXFLAGS;
   stmt_print_system; stmt_optimize; stmt_TARGET_ARCH; stmt_enable_SSE42;
   stmt_enable_AES; stmt_CXX_files; stmt_CMDCLASS; stmt_EXT_MODULES;
   stmt_VERSION_URL; stmt_setup].

(** What holds after the first [n] statements of the script: the query
    has been put once, and each of the three names, from the statement
    that binds it on, has the value that statement gave it. *)
Definition detected_once (h : Host) (n : nat) (st : State) : Prop :=
  queries st = Nat.min n 1 /\
  ((1 <= n)%nat -> name st "CPU_FLAGS" = Ok (detected h)) /\
  ((5 <= n)%nat ->
     name st "HAVE_SSE42" = Ok (VBool (cpu_has h "sse4_2"))) /\
  ((6 <= n)%nat -> name st "HAVE_AES" = Ok (VBool (cpu_has h "aes"))).

(** ** A toy engine *)

(** A toy instance of the mixing functions, for running the engine: the
    lanes are the list of absorbed blocks, and the digest is everything
    absorbed followed by the residual bytes. *)
Module Toy.

Definition Lanes : Type := list (list Byte.byte).

Definition seed_lanes (v : MetroHash.Variant) (seed : Z) : Lanes := [].

Definition absorb (v : MetroHash.Variant) (p : MetroHash.Path) (l : Lanes)
    (block : list Byte.byte) : Lanes :=
  (l ++ [block])%list.

Definition finish (v : MetroHash.Variant) (p : MetroHash.Path) (l : Lanes)
    (tail : list Byte.byte) (total : Z) : list Byte.byte :=
  (concat l ++ tail)%list.

Definition caps : MetroHash.Capabilities := MetroHash.mkCapabilities false false.

Definition fresh : MetroHash.Engine Lanes :=
  MetroHash.new Lanes seed_lanes caps 0 MetroHash.Hash64.

Definition zeros (n : nat) : list Byte.byte := replicate n Byte.x00.

(** A fresh engine fed forty bytes, and the same engine finalized. *)
Definition fed : MetroHash.Engine Lanes :=
  fst (MetroHash.update Lanes absorb fresh (zeros 40)).

Definition finalized : MetroHash.Engine Lanes :=
  fst (MetroHash.finalize Lanes finish fed).

End Toy.

(** ** What the script hands to setuptools, in closed form *)

(** The import of line 22 succeeded. *)
Definition uses_cython (h : Host) : bool :=
  match cython_import h with
  | Ok _ => true
  | Raise _ => false
  end.

Definition src_ext (h : Host) : string :=
  if uses_cython h then ".pyx" else ".cpp".

Definition cmdclass (h : Host) : gmap string string :=
  if uses_cython h
  then <["build_ext" := "Cython.Distutils.build_ext"]>
         {["bdist_wheel" := "bdist_wheel_abi3"]}
  else {["bdist_wheel" := "bdist_wheel_abi3"]}.

Definition the_extension (h : Host) : Extension :=
  mkExtension "metrohash"
    (CXXSOURCES ++ [String.append "src/metrohash" (src_ext h)])
    CXXHEADERS "c++" (expected_flags h) ["src"]
    [("Py_LIMITED_API", "0x03060000")] true.

(** What [get_long_description("README.md")] returns. *)
Definition long_description (h : Host) : string :=
  match get_long_description h "README.md" "utf-8" with
  | Ok text => text
  | Raise _ => _long_desc
  end.

Definition the_setup_call (h : Host) : SetupCall :=
  mkSetupCall VERSION
    (String.append URL (String.append "/tarball/master/" VERSION))
    (cmdclass h) [the_extension h] (long_description h).

(** What a completed run has prepared for setuptools. *)
Record Packaged (h : Host) (st : State) : Prop := mkPackaged {
  pk_USE_CYTHON : name st "USE_CYTHON" = Ok (VBool (uses_cython h));
  pk_SRC_EXT : name st "SRC_EXT" = Ok (VStr (src_ext h));
  pk_CMDCLASS : name st "CMDCLASS" = Ok (VDict (cmdclass h));
  pk_CXXFLAGS : name st "CXXFLAGS" = Ok (VList (expected_flags h));
  pk_EXT_MODULES : name st "EXT_MODULES" = Ok (VExts [the_extension h]);
  pk_setup_call : setup_call st = Some (the_setup_call h)
}.

(** The host [h] with other answers. *)
Definition with_cython (h : Host) (r : result unit) : Host :=
  mkHost (cpuinfo_flags h) r (os_name h) (struct_calcsize h) (os_environ h)
    (platform_machine h) (super_get_tag h) (module_dirname h) (path_join h)
    (open_rb h) (bytes_decode h) (imports h) (stdout h).

Definition with_machine (h : Host) (machine : string) : Host :=
  mkHost (cpuinfo_flags h) (cython_import h) (os_name h) (struct_calcsize h)
    (os_environ h) machine (super_get_tag h) (module_dirname h)
    (path_join h) (open_rb h) (bytes_decode h) (imports h) (stdout h).

Definition with_super_tag (h : Host) (tag : string * string * string)
  : Host :=
  mkHost (cpuinfo_flags h) (cython_import h) (os_name h) (struct_calcsize h)
    (os_environ h) (platform_machine h) tag (module_dirname h)
    (path_join h) (open_rb h) (bytes_decode h) (imports h) (stdout h).

(** The character every compile flag of a system starts with: MSVC
    options on [nt], GCC and Clang options elsewhere. *)
Definition flag_prefix (sys : string) : string :=
  if is_nt sys then "/" else "-".

(** A 64-bit Windows machine with SSE4.2 and AES, with Cython, building
    for [x86_64] under cibuildwheel. *)
Definition windows_host : Host :=
  mkHost (Ok ["sse4_2"; "aes"]) (Ok ())
    "nt" (fun _ => 8) {["AUDITWHEEL_ARCH" := "x86_64"]} "AMD64"
    ("cp312", "cp312", "win_amd64") "/repo" posix_join
    readme_only decode_ascii (Ok ()) (fun _ => Ok ()).

(** [bare_host] with a standard output that cannot encode the first
    text written to it. *)
Definition unprintable_host : Host :=
  mkHost (Raise (ImportError "cpuinfo")) (Raise (ImportError "Cython"))
    "posix" (fun _ => 8) ∅ "x86_64"
    ("pp39", "pypy39_pp73", "linux_x86_64") "/repo" posix_join
    (fun fname => Raise (OtherException "FileNotFoundError" fname))
    decode_ascii (Ok ())
    (fun n => match n with
              | O => Raise (OtherException "UnicodeEncodeError" "ascii")
              | S _ => Ok ()
              end).

(** A host on which Cython is installed but fails while loading. *)
Definition broken_cython_host : Host :=
  with_cython linux_host (Raise (OtherException "AttributeError" "Cython")).

(** * Properties *)

(** ** Functions of the script *)

(** C9: [get_system_bits()] returns [struct.calcsize("P") * 8]; it is 64
    exactly when a pointer takes 8 bytes and 32 exactly when it takes 4. *)
Theorem get_system_bits_pointer_width (h : Host) :
  get_system_bits h = struct_calcsize h "P" * 8 /\
  (get_system_bits h = 64 <-> struct_calcsize h "P" = 8) /\
  (get_system_bits h = 32 <-> struct_calcsize h "P" = 4).
Proof. unfold get_system_bits. lia. Qed.

(** C10: [bdist_wheel_abi3.get_tag] returns [("cp36", "abi3", plat)],
    with the superclass's platform tag, whenever the superclass's python
    tag starts with "cp", and the superclass's triple unchanged
    otherwise. *)
Theorem get_tag_abi3 (h : Host) (python abi plat : string) :
  super_get_tag h = (python, abi, plat) ->
  (startswith python "cp" = true -> get_tag h = ("cp36", "abi3", plat)) /\
  (startswith python "cp" = false -> get_tag h = (python, abi, plat)).
Proof.
  intros Hsuper. unfold get_tag. rewrite Hsuper.
  split; intros ->; reflexivity.
Qed.

Lemma get_tag_abi3_witness :
  get_tag linux_host = ("cp36", "abi3", "linux_x86_64") /\
  get_tag bare_host = ("pp39", "pypy39_pp73", "linux_x86_64").
Proof.
  split.
  - apply (get_tag_abi3 linux_host "cp311" "cp311" "linux_x86_64");
      reflexivity.
  - apply (get_tag_abi3 bare_host "pp39" "pypy39_pp73" "linux_x86_64");
      reflexivity.
Defined.

(** [startswith] is the prefix test: [s] starts with [p] exactly when
    [s] is [p] followed by something. *)
Lemma startswith_spec (s p : string) :
  startswith s p = true <-> exists rest, s = String.append p rest.
Proof.
  revert s. induction p as [|c p IH]; intros s; simpl.
  - split; [intros _; by exists s | done].
  - destruct s as [|d s].
    + split; [done | intros [rest Hrest]; discriminate].
    + destruct (Ascii.eqb_spec c d) as [->|Hne].
      * rewrite IH. split; intros [rest Hrest]; exists rest.
        -- by rewrite Hrest.
        -- simpl in Hrest. by injection Hrest.
      * split; [done |].
        intros [rest Hrest]. simpl in Hrest. injection Hrest. congruence.
Qed.

(** C7: [get_long_description] always returns a string and never lets an
    exception out: the decoded contents of the named file when the file
    can be read and decoded, and the built-in default otherwise. *)
Theorem get_long_description_total (h : Host) (relpath encoding : string) :
  get_long_description h relpath encoding =
    Ok (match open_rb h (path_join h (module_dirname h) relpath) with
        | Ok contents =>
            match bytes_decode h contents encoding with
            | Ok text => text
            | Raise _ => _long_desc
            end
        | Raise _ => _long_desc
        end).
Proof.
  unfold get_long_description.
  destruct (open_rb h _) as [contents|e]; simpl; [|reflexivity].
  destruct (bytes_decode h contents encoding); reflexivity.
Qed.

Example get_long_description_readme :
  get_long_description linux_host "README.md" "utf-8" = Ok "# MetroHash".
Proof. reflexivity. Qed.

Example get_long_description_missing :
  get_long_description linux_host "CHANGES.md" "utf-8" = Ok _long_desc.
Proof. reflexivity. Qed.

Example get_long_description_bad_codec :
  get_long_description linux_host "README.md" "utf-64" = Ok _long_desc.
Proof. reflexivity. Qed.

(** ** Reading and writing globals *)

Lemma name_assign_eq (x : string) (v : value) (st : State) :
  name (assign x v st) x = Ok v.
Proof. unfold name, assign; simpl. by rewrite lookup_insert_eq. Qed.

Lemma name_assign_ne (x y : string) (v : value) (st : State) :
  x <> y -> name (assign x v st) y = name st y.
Proof. intros Hne. unfold name, assign; simpl. by rewrite lookup_insert_ne. Qed.

Lemma name_ask (c : HostCall) (st : State) (y : string) :
  name (ask c st) y = name st y.
Proof. reflexivity. Qed.

Lemma name_tick (st : State) (y : string) : name (tick st) y = name st y.
Proof. reflexivity. Qed.

Lemma name_lookup (st : State) (x : string) (v : value) :
  name st x = Ok v <-> globals st !! x = Some v.
Proof.
  unfold name, load. destruct (globals st !! x); split; congruence.
Qed.

(** Binding a name to the value it already has changes nothing. *)
Lemma assign_same (x : string) (v : value) (st : State) :
  name st x = Ok v -> assign x v st = st.
Proof.
  intros Hx%name_lookup. destruct st as [g a s n]. unfold assign; simpl in *.
  f_equal. by apply insert_id.
Qed.

Ltac names :=
  repeat first
    [ rewrite name_assign_eq
    | rewrite name_assign_ne by done
    | rewrite name_ask
    | rewrite name_tick ].

(** ** Writing to standard output *)

Lemma print_at (h : Host) (st : State) (k : nat) :
  printed st = k -> print h st = (_ <- stdout h k ;; Ok (tick st)).
Proof. by intros <-. Qed.

Lemma print_inv (h : Host) (st st' : State) :
  print h st = Ok st' -> stdout h (printed st) = Ok () /\ st' = tick st.
Proof.
  unfold print. destruct (stdout h (printed st)) as [[]|e]; simpl; [|done].
  by intros [= <-].
Qed.

(** ** What each statement does *)

Lemma stmt_CPU_FLAGS_spec (h : Host) (st : State) :
  stmt_CPU_FLAGS h st =
    (st' <- (if query_failed h then print h (ask AskCpuinfo st)
             else Ok (ask AskCpuinfo st)) ;;
     Ok (assign "CPU_FLAGS" (detected h) st')).
Proof.
  unfold stmt_CPU_FLAGS, detected, query_failed.
  by destruct (cpuinfo_flags h).
Qed.

Lemma stmt_USE_CYTHON_spec (h : Host) (st : State) :
  stmt_USE_CYTHON h st =
    match cython_import h with
    | Ok _ =>
        Ok (assign "USE_CYTHON" (VBool true)
              (assign "build_ext" (VStr "Cython.Distutils.build_ext")
                 (ask AskCython st)))
    | Raise (ImportError _) =>
        Ok (assign "USE_CYTHON" (VBool false) (ask AskCython st))
    | Raise e => Raise e
    end.
Proof.
  unfold stmt_USE_CYTHON. by destruct (cython_import h) as [|[|]].
Qed.

Lemma py_in_detected (h : Host) (x : string) :
  py_in x (detected h) = Ok (cpu_has h x).
Proof.
  unfold detected, cpu_has. destruct (cpuinfo_flags h); simpl; [done|].
  rewrite lookup_empty. rewrite bool_decide_eq_false_2; [done|].
  by intros [? ?].
Qed.

Lemma stmt_HAVE_SSE42_spec (h : Host) (st : State) :
  name st "CPU_FLAGS" = Ok (detected h) ->
  stmt_HAVE_SSE42 h st =
    Ok (assign "HAVE_SSE42" (VBool (cpu_has h "sse4_2")) st).
Proof.
  intros Hflags. unfold stmt_HAVE_SSE42. rewrite Hflags; simpl.
  by rewrite py_in_detected.
Qed.

Lemma stmt_HAVE_AES_spec (h : Host) (st : State) :
  name st "CPU_FLAGS" = Ok (detected h) ->
  stmt_HAVE_AES h st = Ok (assign "HAVE_AES" (VBool (cpu_has h "aes")) st).
Proof.
  intros Hflags. unfold stmt_HAVE_AES. rewrite Hflags; simpl.
  by rewrite py_in_detected.
Qed.

Lemma stmt_print_system_spec (h : Host) (st : State) (a b c : value) :
  name st "SYSTEM" = Ok a -> name st "BITS" = Ok b ->
  name st "CPU_FLAGS" = Ok c ->
  stmt_print_system h st =
    (st1 <- print h st ;;
     st2 <- print h st1 ;;
     print h (ask AskEnviron st2)).
Proof.
  intros Ha Hb Hc. unfold stmt_print_system. rewrite Ha, Hb; simpl.
  destruct (print h st) as [st1|e] eqn:Hprint; simpl; [|done].
  apply print_inv in Hprint as [_ ->]. by rewrite name_tick, Hc.
Qed.

Lemma stmt_optimize_spec (h : Host) (st : State) (sys : string)
    (l : list string) :
  name st "SYSTEM" = Ok (VStr sys) ->
  name st "CXXFLAGS" = Ok (VList l) ->
  stmt_optimize h st = Ok (assign "CXXFLAGS" (VList (l ++ base_flags sys)) st).
Proof.
  intros Hsys Hl. unfold stmt_optimize, name_eq, extend, base_flags, is_nt.
  rewrite Hsys; simpl. destruct (String.eqb sys "nt"); by rewrite Hl.
Qed.

Lemma stmt_TARGET_ARCH_spec (h : Host) (st : State) :
  stmt_TARGET_ARCH h st =
    print h (assign "TARGET_ARCH" (VStr (target_arch h))
               (ask AskEnviron (ask AskMachine st))).
Proof. reflexivity. Qed.

Lemma accel_condition_spec (st : State) (x : string) (have : bool)
    (arch : string) (bits : Z) :
  name st x = Ok (VBool have) ->
  name st "TARGET_ARCH" = Ok (VStr arch) ->
  name st "BITS" = Ok (VInt bits) ->
  accel_condition st x = Ok (accel have arch bits).
Proof.
  intros Hx Harch Hbits. unfold accel_condition, py_and, test, name_eq, accel.
  rewrite Hx; simpl. destruct have; simpl; [|done].
  rewrite Harch; simpl. destruct (String.eqb arch "x86_64"); simpl; [|done].
  by rewrite Hbits.
Qed.

Lemma enable_spec (h : Host) (st : State) (x msvc gcc : string) (have : bool)
    (sys arch : string) (bits : Z) (l : list string) :
  name st x = Ok (VBool have) ->
  name st "TARGET_ARCH" = Ok (VStr arch) ->
  name st "BITS" = Ok (VInt bits) ->
  name st "SYSTEM" = Ok (VStr sys) ->
  name st "CXXFLAGS" = Ok (VList l) ->
  (go <- accel_condition st x ;;
   if go then
     st <- print h st ;;
     nt <- name_eq st "SYSTEM" (VStr "nt") ;;
     if nt then append "CXXFLAGS" msvc st else append "CXXFLAGS" gcc st
   else Ok st) =
  (st' <- (if accel have arch bits then print h st else Ok st) ;;
   Ok (assign "CXXFLAGS"
         (VList (l ++ accel_flag msvc gcc have sys arch bits)) st')).
Proof.
  intros Hx Harch Hbits Hsys Hl.
  rewrite (accel_condition_spec st x have arch bits) by done.
  unfold accel_flag; simpl. destruct (accel have arch bits); simpl.
  - destruct (print h st) as [st1|e] eqn:Hprint; simpl; [|done].
    apply print_inv in Hprint as [_ ->].
    unfold name_eq, append, extend, is_nt. rewrite !name_tick, Hsys; simpl.
    destruct (String.eqb sys "nt"); by rewrite Hl.
  - rewrite app_nil_r. by rewrite assign_same.
Qed.

Lemma stmt_CMDCLASS_exact (h : Host) (st : State) (cy : bool) :
  name st "USE_CYTHON" = Ok (VBool cy) ->
  (cy = true -> name st "build_ext" = Ok (VStr "Cython.Distutils.build_ext")) ->
  stmt_CMDCLASS h st =
    (st' <- print h (assign "CMDCLASS"
                       (VDict {["bdist_wheel" := "bdist_wheel_abi3"]}) st) ;;
     Ok (assign "SRC_EXT" (VStr (if cy then ".pyx" else ".cpp"))
           (assign "CMDCLASS"
              (VDict (if cy
                      then <["build_ext" := "Cython.Distutils.build_ext"]>
                             {["bdist_wheel" := "bdist_wheel_abi3"]}
                      else {["bdist_wheel" := "bdist_wheel_abi3"]}))
              st'))).
Proof.
  intros Hcy Hbuild. unfold stmt_CMDCLASS, test. names. rewrite Hcy; simpl.
  destruct cy.
  - destruct (print h _) as [st1|e] eqn:Hprint; simpl; [|done].
    apply print_inv in Hprint as [_ ->]. names. by rewrite Hbuild by done.
  - destruct (print h _) as [st1|e] eqn:Hprint; simpl; [|done].
    apply print_inv in Hprint as [_ ->].
    by rewrite (assign_same "CMDCLASS" _ (tick _)) by by names.
Qed.

Lemma stmt_EXT_MODULES_spec (h : Host) (st : State) (srcs hdrs flags : list string)
    (ext : string) :
  name st "CXXSOURCES" = Ok (VList srcs) ->
  name st "SRC_EXT" = Ok (VStr ext) ->
  name st "CXXHEADERS" = Ok (VList hdrs) ->
  name st "CXXFLAGS" = Ok (VList flags) ->
  stmt_EXT_MODULES h st =
    Ok (assign "EXT_MODULES"
          (VExts [mkExtension "metrohash"
                    (srcs ++ [String.append "src/metrohash" ext])
                    hdrs "c++" flags ["src"]
                    [("Py_LIMITED_API", "0x03060000")] true]) st).
Proof.
  intros H1 H2 H3 H4. unfold stmt_EXT_MODULES. by rewrite H1, H2, H3, H4.
Qed.

Lemma get_long_description_ok (h : Host) (relpath encoding : string) :
  exists text, get_long_description h relpath encoding = Ok text.
Proof.
  unfold get_long_description.
  destruct (open_rb h _) as [contents|e]; simpl; [|eauto].
  destruct (bytes_decode h contents encoding); simpl; eauto.
Qed.

Lemma get_long_description_README (h : Host) :
  get_long_description h "README.md" "utf-8" = Ok (long_description h).
Proof.
  unfold long_description.
  by destruct (get_long_description_ok h "README.md" "utf-8") as [text ->].
Qed.

Lemma stmt_setup_exact (h : Host) (st : State) (version url : string)
    (classes : gmap string string) (exts : list Extension) :
  name st "VERSION" = Ok (VStr version) ->
  name st "URL" = Ok (VStr url) ->
  name st "CMDCLASS" = Ok (VDict classes) ->
  name st "EXT_MODULES" = Ok (VExts exts) ->
  stmt_setup h st =
    Ok (mkState (globals st) (asked st ++ [AskFile])
          (Some (mkSetupCall version
                   (String.append url
                      (String.append "/tarball/master/" version))
                   classes exts (long_description h)))
          (printed st)).
Proof.
  intros H1 H2 H3 H4. unfold stmt_setup. rewrite H1, H2, H3, H4; simpl.
  by rewrite get_long_description_README.
Qed.

(** ** The whole run *)

Lemma name_setup (st : State) (a : list HostCall) (s : option SetupCall)
    (n : nat) (x : string) :
  name (mkState (globals st) a s n) x = name st x.
Proof. reflexivity. Qed.

Ltac by_names := names; reflexivity.

(** One write to standard output in the run: its index is read off the
    state, and both outcomes are followed. *)
Ltac write_out h :=
  erewrite print_at
    by (cbn [printed assign ask tick initial]; reflexivity);
  match goal with
  | |- context [Py.bind (stdout h ?k) _] =>
      let Hout := fresh "Hout" in
      destruct (stdout h k) as [[]|?] eqn:Hout
  end;
  cbn [bind];
  [ | split;
      [ reflexivity
      | right; right;
        match goal with
        | H : stdout h ?k = Raise ?e |- _ =>
            exists k; split; [simpl; lia | exact H]
        end ] ].

(** The outcome of a run: it reaches the [setup] call exactly on the
    hosts that [completes] describes, leaving the globals as the closed
    forms say; otherwise the exception that stops it is the host's. *)
Lemma run_outcome (h : Host) :
  match run h with
  | Ok st => completes h = true /\ Completed h st /\ Packaged h st
  | Raise e => completes h = false /\ stopped_by h e
  end.
Proof.
  unfold run, stmt_imports, stopped_by, completes, prints_needed,
    sse42_enabled, aes_enabled, cython_passes, stdout_ok.
  destruct (imports h) as [[]|e0] eqn:Himp; cbn [bind is_ok andb];
    [|by split; [|left]].
  unfold setup_py. cbn [exec].
  rewrite stmt_CPU_FLAGS_spec.
  destruct (query_failed h) eqn:Hq;
  destruct (accel (cpu_has h "sse4_2") (target_arch h) (get_system_bits h))
    eqn:Esse;
  destruct (accel (cpu_has h "aes") (target_arch h) (get_system_bits h))
    eqn:Eaes;
  destruct (cython_import h) as [[]|[m|c m]] eqn:Hcy.
  all: cbn [Nat.add writes_ok is_ok andb].
  all: try write_out h.
  all: cbn [bind]; rewrite stmt_USE_CYTHON_spec, Hcy; cbn [bind].
  all: try (split; [cbn; by rewrite ?andb_false_r | right; left; eauto]; fail).
  all: unfold stmt_SYSTEM, stmt_BITS; cbn [bind].
  all: rewrite stmt_HAVE_SSE42_spec by by_names; cbn [bind].
  all: rewrite stmt_HAVE_AES_spec by by_names; cbn [bind].
  all: unfold stmt_CXXFLAGS; cbn [bind].
  all: erewrite stmt_print_system_spec by by_names.
  all: write_out h.
  all: write_out h.
  all: write_out h.
  all: erewrite stmt_optimize_spec by by_names; cbn [bind].
  all: rewrite stmt_TARGET_ARCH_spec.
  all: write_out h.
  all: unfold stmt_enable_SSE42; erewrite enable_spec by by_names.
  all: rewrite Esse.
  all: try write_out h.
  all: cbn [bind].
  all: unfold stmt_enable_AES; erewrite enable_spec by by_names.
  all: rewrite Eaes.
  all: try write_out h.
  all: cbn [bind].
  all: unfold stmt_CXX_files; cbn [bind].
  all: erewrite stmt_CMDCLASS_exact;
    [ | by_names | first [intros _; by_names | done] ].
  all: write_out h.
  all: erewrite stmt_EXT_MODULES_spec by by_names; cbn [bind].
  all: unfold stmt_VERSION_URL; cbn [bind].
  all: erewrite stmt_setup_exact by by_names.
  all: (split; [reflexivity|]).
  all: split; split; unfold the_setup_call, the_extension, cmdclass,
    src_ext, uses_cython; rewrite ?Hcy, ?name_setup; by_names.
Qed.

Lemma run_ok_completed (h : Host) (st : State) :
  run h = Ok st -> cython_passes h = true /\ Completed h st.
Proof.
  intros Hrun. pose proof (run_outcome h) as Hout. rewrite Hrun in Hout.
  destruct Hout as (Hgo & Hst & _). split; [|done].
  unfold completes in Hgo.
  by apply andb_prop in Hgo as [[_ ?]%andb_prop _].
Qed.

Lemma run_ok_packaged (h : Host) (st : State) :
  run h = Ok st -> Packaged h st.
Proof.
  intros Hrun. pose proof (run_outcome h) as Hout. rewrite Hrun in Hout.
  apply Hout.
Qed.

Lemma is_ok_run (h : Host) : is_ok (run h) = completes h.
Proof.
  pose proof (run_outcome h) as Hout.
  destruct (run h); simpl; by destruct Hout as [-> _].
Qed.

(** The flags a build ends with, in closed form. *)
Lemma built_flags_spec (h : Host) :
  built_flags h = if completes h then Some (expected_flags h) else None.
Proof.
  unfold built_flags. pose proof (run_outcome h) as Hout.
  destruct (run h) as [st|e].
  - destruct Hout as (-> & Hst & _).
    by rewrite (proj1 (name_lookup _ _ _) (done_CXXFLAGS _ _ Hst)).
  - by destruct Hout as [-> _].
Qed.

(** ** What the statements leave alone *)

Lemma frame_refl (xs : list string) (st : State) : frame xs st st.
Proof. by split. Qed.

Lemma frame_assign (xs : list string) (st st' : State) (y : string)
    (v : value) :
  y ∉ xs -> frame xs st st' -> frame xs st (assign y v st').
Proof.
  intros Hy [Hq Hx]. split; [done|].
  intros x Hin. unfold assign; simpl.
  rewrite lookup_insert_ne; [by apply Hx | congruence].
Qed.

Lemma frame_ask (xs : list string) (st st' : State) (c : HostCall) :
  c <> AskCpuinfo -> frame xs st st' -> frame xs st (ask c st').
Proof.
  intros Hc [Hq Hx]. split; [|done].
  unfold queries, ask in *; simpl. rewrite count_occ_app, Hq; simpl.
  destruct (HostCall_eq_dec c AskCpuinfo); [done | lia].
Qed.

Lemma frame_tick (xs : list string) (st st' : State) :
  frame xs st st' -> frame xs st (tick st').
Proof. by intros [Hq Hx]. Qed.

Lemma bind_ok {A B} (r : result A) (k : A -> result B) (b : B) :
  Py.bind r k = Ok b -> exists a, r = Ok a /\ k a = Ok b.
Proof. destruct r; simpl; [eauto | discriminate]. Qed.

Lemma extend_ok (x : string) (more : list string) (st st' : State) :
  extend x more st = Ok st' ->
  exists l, name st x = Ok (VList l) /\ st' = assign x (VList (l ++ more)) st.
Proof.
  unfold extend. intros (v & Hv & Hst)%bind_ok.
  destruct v; try discriminate. injection Hst as <-. eauto.
Qed.

Ltac crack :=
  repeat match goal with
  | H : Py.bind _ _ = Ok _ |- _ =>
      let a := fresh "a" in
      let Ha := fresh "Ha" in
      apply bind_ok in H as (a & Ha & H)
  | H : extend _ _ _ = Ok _ |- _ =>
      let l := fresh "l" in
      let Hl := fresh "Hl" in
      apply extend_ok in H as (l & Hl & ->)
  | H : print _ _ = Ok _ |- _ => apply print_inv in H as [_ ->]
  | H : append _ _ _ = Ok _ |- _ => unfold append in H
  | H : (if ?b then _ else _) = Ok _ |- _ => destruct b
  | H : match ?v with _ => _ end = Ok _ |- _ => destruct v; try discriminate H
  | H : Ok _ = Ok _ |- _ => injection H as <-
  | H : Raise _ = Ok _ |- _ => discriminate H
  end.

Ltac frame_solve :=
  repeat first
    [ apply frame_refl
    | apply frame_assign; [apply (bool_decide_unpack _); vm_compute; exact I |]
    | apply frame_ask; [done |]
    | apply frame_tick ].

Lemma setup_frame (st st' : State) (s : option SetupCall) :
  st' = mkState (globals st) (asked st ++ [AskFile]) s (printed st) ->
  frame capability_names st st'.
Proof.
  intros ->. split; [|done].
  unfold queries; simpl. rewrite count_occ_app; simpl. lia.
Qed.

Lemma other_statements_frame :
  Forall (fun s : Stmt => forall h st st',
            s h st = Ok st' -> frame capability_names st st')
    other_statements.
Proof.
  unfold other_statements. repeat apply Forall_cons_2; [..|apply Forall_nil_2].
  - intros h st st'. rewrite stmt_USE_CYTHON_spec.
    destruct (cython_import h) as [[]|[m|c m]]; intros H; crack; frame_solve.
  - intros h st st' H. unfold stmt_SYSTEM in H. crack. frame_solve.
  - intros h st st' H. unfold stmt_BITS in H. crack. frame_solve.
  - intros h st st' H. unfold stmt_CXXFLAGS in H. crack. frame_solve.
  - intros h st st' H. unfold stmt_print_system in H. crack. frame_solve.
  - intros h st st' H. unfold stmt_optimize in H. crack; frame_solve.
  - intros h st st' H. unfold stmt_TARGET_ARCH in H. crack. frame_solve.
  - intros h st st' H. unfold stmt_enable_SSE42 in H. crack; frame_solve.
  - intros h st st' H. unfold stmt_enable_AES in H. crack; frame_solve.
  - intros h st st' H. unfold stmt_CXX_files in H. crack. frame_solve.
  - intros h st st' H. unfold stmt_CMDCLASS in H. crack; frame_solve.
  - intros h st st' H. unfold stmt_EXT_MODULES in H. crack; frame_solve.
  - intros h st st' H. unfold stmt_VERSION_URL in H. crack. frame_solve.
  - intros h st st' H. unfold stmt_setup in H. crack.
    by eapply setup_frame.
Qed.

Lemma other_statement_frame (s : Stmt) (h : Host) (st st' : State) :
  s ∈ other_statements -> s h st = Ok st' -> frame capability_names st st'.
Proof.
  intros Hin. revert h st st'.
  by apply (proj1 (Forall_forall _ _) other_statements_frame).
Qed.

Lemma frame_name (xs : list string) (st st' : State) (x : string) :
  frame xs st st' -> x ∈ xs -> name st' x = name st x.
Proof. intros [_ Hx] Hin. unfold name. by rewrite Hx. Qed.

Lemma exec_snoc (body : list Stmt) (s : Stmt) (h : Host) (st : State) :
  exec (body ++ [s]) h st = (st' <- exec body h st ;; s h st').
Proof.
  revert st. induction body as [|s0 body IH]; intros st; simpl.
  - by destruct (s h st).
  - destruct (s0 h st); simpl; [apply IH | done].
Qed.

(** ** The capability detection *)

Lemma detected_once_frame (h : Host) (n : nat) (st st' : State) :
  (1 <= n)%nat -> n <> 4%nat -> n <> 5%nat ->
  detected_once h n st -> frame capability_names st st' ->
  detected_once h (S n) st'.
Proof.
  intros Hn H4 H5 (Hq & Hcpu & Hsse & Haes) Hframe.
  assert (Hin : forall x, x ∈ capability_names ->
                          name st' x = name st x).
  { intros x Hx. by apply (frame_name capability_names). }
  unfold capability_names in Hin.
  repeat split.
  - destruct Hframe as [-> _]. rewrite Hq. lia.
  - intros _. rewrite Hin by (rewrite !elem_of_cons; auto). apply Hcpu. lia.
  - intros ?. rewrite Hin by (rewrite !elem_of_cons; auto). apply Hsse. lia.
  - intros ?. rewrite Hin by (rewrite !elem_of_cons; auto). apply Haes. lia.
Qed.

Ltac other_statement IH H :=
  eapply detected_once_frame; [| | | exact IH |]; [lia | lia | lia |];
  eapply other_statement_frame; [|exact H];
  unfold other_statements;
  repeat first [apply list_elem_of_here | apply list_elem_of_further].

Ltac pick_statement n Hs :=
  destruct n as [|n]; simpl in Hs;
  [injection Hs as <- | first [discriminate Hs | pick_statement n Hs]].

(** C3: the capability detection is performed exactly once, by the first
    statement of the script, and [CPU_FLAGS], [HAVE_SSE42] and [HAVE_AES]
    are bound once: after any number of further statements the query
    count is still one and the three names still have the values the
    detection gave them. *)
Theorem detection_performed_once (h : Host) (n : nat) (st : State) :
  exec (take n setup_py) h initial = Ok st -> detected_once h n st.
Proof.
  revert st. induction n as [|n IH]; intros st Hrun.
  - injection Hrun as <-. by repeat split; intros; try lia.
  - destruct (setup_py !! n) as [s|] eqn:Hs.
    + rewrite (take_S_r _ _ _ Hs), exec_snoc in Hrun.
      apply bind_ok in Hrun as (st0 & Hst0 & Hstep).
      specialize (IH st0 Hst0). clear Hst0.
      unfold setup_py in Hs. pick_statement n Hs.
      all: try (other_statement IH Hstep; fail).
      all: destruct IH as (Hq & Hcpu & Hsse & Haes).
      * rewrite stmt_CPU_FLAGS_spec in Hstep.
        apply bind_ok in Hstep as (st1 & Hst1 & Hstep).
        injection Hstep as <-.
        destruct (query_failed h);
          [apply print_inv in Hst1 as [_ ->] | injection Hst1 as <-].
        all: repeat split; intros; try lia; [|by names].
        all: unfold queries in *; simpl.
        all: rewrite count_occ_app, Hq; reflexivity.
      * rewrite stmt_HAVE_SSE42_spec in Hstep by (apply Hcpu; lia).
        injection Hstep as <-.
        repeat split; intros; try lia; names; auto with lia.
      * rewrite stmt_HAVE_AES_spec in Hstep by (apply Hcpu; lia).
        injection Hstep as <-.
        repeat split; intros; try lia; names; auto with lia.
    + apply lookup_ge_None_1 in Hs.
      rewrite take_ge in Hrun by lia. rewrite take_ge in IH by lia.
      destruct (IH st Hrun) as (Hq & Hcpu & Hsse & Haes).
      simpl in Hs. repeat split; intros; [rewrite Hq|..]; auto with lia.
Qed.

Lemma detection_performed_once_witness :
  exec (take 17 setup_py) linux_host initial = Ok (final_state linux_host) /\
  detected_once linux_host 17 (final_state linux_host).
Proof.
  assert (Hrun : exec (take 17 setup_py) linux_host initial
                 = Ok (final_state linux_host)) by (vm_compute; reflexivity).
  split; [exact Hrun|].
  exact (detection_performed_once linux_host 17 (final_state linux_host) Hrun).
Defined.

(** ** The compile flags *)

Lemma base_flags_plain (sys f : string) :
  f ∈ acceleration_flags -> f ∉ base_flags sys.
Proof.
  unfold acceleration_flags, base_flags. intros Hf.
  destruct (is_nt sys);
    repeat (apply elem_of_cons in Hf as [->|Hf]);
    try (by apply elem_of_nil in Hf);
    apply (bool_decide_unpack _); vm_compute; exact I.
Qed.

Lemma accelerated_false (flags : list string) :
  (forall f, f ∈ acceleration_flags -> f ∉ flags) -> accelerated flags = false.
Proof.
  intros Hno. unfold accelerated. apply bool_decide_eq_false_2.
  rewrite Exists_exists. intros (f & Hin & Hacc). by apply (Hno f).
Qed.

Lemma sse42_in_expected (h : Host) :
  bool_decide ("-msse4.2" ∈ expected_flags h)
  || bool_decide ("/D__SSE4_2__" ∈ expected_flags h)
  = accel (cpu_has h "sse4_2") (target_arch h) (get_system_bits h).
Proof.
  unfold expected_flags, sse42_flags, aes_flags, accel_flag, base_flags.
  destruct (accel (cpu_has h "sse4_2") _ _), (accel (cpu_has h "aes") _ _),
    (is_nt (os_name h)); reflexivity.
Qed.

Lemma aes_in_expected (h : Host) :
  bool_decide ("-maes" ∈ expected_flags h)
  || bool_decide ("/D__AES__" ∈ expected_flags h)
  = accel (cpu_has h "aes") (target_arch h) (get_system_bits h).
Proof.
  unfold expected_flags, sse42_flags, aes_flags, accel_flag, base_flags.
  destruct (accel (cpu_has h "sse4_2") _ _), (accel (cpu_has h "aes") _ _),
    (is_nt (os_name h)); reflexivity.
Qed.

(** C2, as the script has it: when the capability query raises, the
    handler first prints the exception. If that write succeeds, the
    empty dict is bound to [CPU_FLAGS] and the script goes on with the
    next statement; if it raises, that exception stops the script. With
    a failed query the run reaches the [setup] call exactly when the
    imports succeed, the Cython import lets it pass and its six writes
    to standard output succeed, and then [HAVE_SSE42] and [HAVE_AES] are
    false and no acceleration flag is among the compile flags. *)
Theorem failed_query_means_no_acceleration (h : Host) (e : exn) :
  cpuinfo_flags h = Raise e ->
  (forall st,
     stdout h (printed st) = Ok () ->
     exists st',
       stmt_CPU_FLAGS h st = Ok st' /\
       name st' "CPU_FLAGS" = Ok (VDict ∅) /\
       forall body, exec (stmt_CPU_FLAGS :: body) h st = exec body h st') /\
  (forall st e',
     stdout h (printed st) = Raise e' -> stmt_CPU_FLAGS h st = Raise e') /\
  is_ok (run h) = is_ok (imports h) && cython_passes h && stdout_ok h 6 /\
  forall st, run h = Ok st ->
    name st "HAVE_SSE42" = Ok (VBool false) /\
    name st "HAVE_AES" = Ok (VBool false) /\
    exists flags,
      name st "CXXFLAGS" = Ok (VList flags) /\
      flags = base_flags (os_name h) /\
      accelerated flags = false.
Proof.
  intros Hraise.
  assert (Hhas : forall x, cpu_has h x = false).
  { intros x. unfold cpu_has. by rewrite Hraise. }
  assert (Hflags : expected_flags h = base_flags (os_name h)).
  { unfold expected_flags, sse42_flags, aes_flags, accel_flag, accel.
    rewrite !Hhas. simpl. by rewrite !app_nil_r. }
  assert (Hstep : forall st,
            stmt_CPU_FLAGS h st =
              (st' <- print h (ask AskCpuinfo st) ;;
               Ok (assign "CPU_FLAGS" (VDict ∅) st'))).
  { intros st. rewrite stmt_CPU_FLAGS_spec. unfold query_failed, detected.
    by rewrite Hraise. }
  split; [|split; [|split]].
  - intros st Hout.
    exists (assign "CPU_FLAGS" (VDict ∅) (tick (ask AskCpuinfo st))).
    assert (Hok : stmt_CPU_FLAGS h st
                  = Ok (assign "CPU_FLAGS" (VDict ∅)
                          (tick (ask AskCpuinfo st)))).
    { rewrite Hstep. unfold print. simpl. by rewrite Hout. }
    split; [exact Hok|]. split; [by names|].
    intros body. cbn [exec]. by rewrite Hok.
  - intros st e' Hout. rewrite Hstep. unfold print. simpl. by rewrite Hout.
  - rewrite is_ok_run. unfold completes, prints_needed, query_failed,
      sse42_enabled, aes_enabled, accel.
    by rewrite Hraise, !Hhas.
  - intros st Hrun. apply run_ok_completed in Hrun as [_ Hst].
    split; [by rewrite (done_HAVE_SSE42 _ _ Hst), Hhas|].
    split; [by rewrite (done_HAVE_AES _ _ Hst), Hhas|].
    exists (base_flags (os_name h)). repeat split.
    + rewrite <- Hflags. apply Hst.
    + apply accelerated_false. intros f. apply base_flags_plain.
Qed.

Lemma failed_query_means_no_acceleration_witness :
  cpuinfo_flags bare_host = Raise (ImportError "cpuinfo") /\
  is_ok (run bare_host) = true.
Proof.
  split; [reflexivity|].
  destruct (failed_query_means_no_acceleration bare_host
              (ImportError "cpuinfo") eq_refl) as (_ & _ & Hok & _).
  rewrite Hok. vm_compute. reflexivity.
Defined.

(** C2 as stated fails: on a host whose standard output cannot take the
    text of line 18, the failed query does stop the script. *)
Lemma failed_query_can_stop_the_script :
  ~ failed_query_never_stops unprintable_host.
Proof.
  intros Hnever.
  destruct (Hnever (ImportError "cpuinfo") initial eq_refl)
    as (st' & Hstep & _).
  vm_compute in Hstep. discriminate Hstep.
Qed.

Example unprintable_host_stops :
  run unprintable_host = Raise (OtherException "UnicodeEncodeError" "ascii").
Proof. reflexivity. Qed.

(** C8: whenever [TARGET_ARCH] is not "x86_64" or [BITS] is not 64, the
    compile flags the script ends with contain none of the four
    acceleration flags, whatever CPU flags were detected. *)
Theorem no_acceleration_off_x86_64 (h : Host) (st : State) (arch : string)
    (bits : Z) :
  run h = Ok st ->
  name st "TARGET_ARCH" = Ok (VStr arch) ->
  name st "BITS" = Ok (VInt bits) ->
  arch <> "x86_64" \/ bits <> 64 ->
  exists flags,
    name st "CXXFLAGS" = Ok (VList flags) /\
    forall f, f ∈ acceleration_flags -> f ∉ flags.
Proof.
  intros Hrun Harch Hbits Hoff.
  apply run_ok_completed in Hrun as [_ Hst].
  rewrite (done_TARGET_ARCH _ _ Hst) in Harch. injection Harch as <-.
  rewrite (done_BITS _ _ Hst) in Hbits. injection Hbits as <-.
  assert (Hacc : forall have,
             accel have (target_arch h) (get_system_bits h) = false).
  { intros have. unfold accel. destruct Hoff as [Hne|Hne].
    - apply String.eqb_neq in Hne. rewrite Hne.
      by rewrite andb_false_r.
    - apply Z.eqb_neq in Hne. rewrite Hne. by rewrite andb_false_r. }
  exists (base_flags (os_name h)). split.
  - rewrite (done_CXXFLAGS _ _ Hst). do 2 f_equal.
    unfold expected_flags, sse42_flags, aes_flags, accel_flag.
    rewrite !Hacc. simpl. by rewrite !app_nil_r.
  - intros f. apply base_flags_plain.
Qed.

Lemma no_acceleration_off_x86_64_witness :
  run cross_host = Ok (final_state cross_host) /\
  exists flags,
    name (final_state cross_host) "CXXFLAGS" = Ok (VList flags) /\
    forall f, f ∈ acceleration_flags -> f ∉ flags.
Proof.
  assert (Hrun : run cross_host = Ok (final_state cross_host))
    by (vm_compute; reflexivity).
  split; [exact Hrun|].
  apply (no_acceleration_off_x86_64 cross_host (final_state cross_host)
           "aarch64" 64 Hrun).
  - vm_compute. reflexivity.
  - vm_compute. reflexivity.
  - left. discriminate.
Defined.

(** ** The streaming engine *)

Example toy_consume :
  MetroHash.consume Toy.Lanes Toy.absorb MetroHash.Hash64 MetroHash.Software
    [] (Toy.zeros 70)
  = ([Toy.zeros 32; Toy.zeros 32], Toy.zeros 6).
Proof. reflexivity. Qed.

Section EngineFacts.

Variable Lanes : Type.
Variable seed_lanes : MetroHash.Variant -> Z -> Lanes.
Variable absorb :
  MetroHash.Variant -> MetroHash.Path -> Lanes -> list Byte.byte -> Lanes.
Variable finish :
  MetroHash.Variant -> MetroHash.Path -> Lanes -> list Byte.byte -> Z ->
  list Byte.byte.

Local Abbreviation Engine := (MetroHash.Engine Lanes).
Local Abbreviation consume := (MetroHash.consume Lanes absorb).
Local Abbreviation update := (MetroHash.update Lanes absorb).
Local Abbreviation finalize := (MetroHash.finalize Lanes finish).
Local Abbreviation feed := (MetroHash.feed Lanes absorb).
Local Abbreviation new := (MetroHash.new Lanes seed_lanes).
Local Abbreviation reset := (MetroHash.reset Lanes seed_lanes).
Local Abbreviation absorbed := (MetroHash.absorbed Lanes seed_lanes absorb).
Local Abbreviation construct := (MetroHash.construct Lanes seed_lanes).
Local Abbreviation hash_built :=
  (MetroHash.hash_built Lanes seed_lanes absorb finish).

Lemma consume_unfold (v : MetroHash.Variant) (p : MetroHash.Path)
    (l : Lanes) (data : list Byte.byte) :
  consume v p l data =
    if decide (MetroHash.block_size <= length data)%nat
    then consume v p (absorb v p l (take MetroHash.block_size data))
           (drop MetroHash.block_size data)
    else (l, data).
Proof.
  rewrite MetroHash.consume_equation_1.
  by destruct (decide (MetroHash.block_size <= length data)%nat).
Qed.

(** Consuming a stream in two pieces: the residual of the first piece
    is put in front of the second. *)
Lemma consume_app (v : MetroHash.Variant) (p : MetroHash.Path)
    (a b : list Byte.byte) (l : Lanes) :
  consume v p l (a ++ b) =
    consume v p (fst (consume v p l a)) (snd (consume v p l a) ++ b).
Proof.
  remember (length a) as n eqn:Hn. revert a l Hn.
  induction n as [n IH] using lt_wf_ind. intros a l ->.
  rewrite (consume_unfold v p l a).
  destruct (decide (MetroHash.block_size <= length a)%nat) as [Hfull|Hshort].
  - rewrite (consume_unfold v p l (a ++ b)).
    rewrite decide_True by (rewrite length_app; lia).
    rewrite take_app_le, drop_app_le by done.
    apply (IH (length (drop MetroHash.block_size a))); [|done].
    rewrite length_drop. unfold MetroHash.block_size in *. lia.
  - reflexivity.
Qed.

(** The residual is always shorter than a block. *)
Lemma consume_residual (v : MetroHash.Variant) (p : MetroHash.Path)
    (data : list Byte.byte) (l : Lanes) :
  (length (snd (consume v p l data)) < MetroHash.block_size)%nat.
Proof.
  remember (length data) as n eqn:Hn. revert data l Hn.
  induction n as [n IH] using lt_wf_ind. intros data l ->.
  rewrite consume_unfold.
  destruct (decide (MetroHash.block_size <= length data)%nat) as [Hfull|Hshort].
  - apply (IH (length (drop MetroHash.block_size data))); [|done].
    rewrite length_drop. unfold MetroHash.block_size in *. lia.
  - simpl. lia.
Qed.

Lemma absorbed_new (caps : MetroHash.Capabilities) (seed : Z)
    (v : MetroHash.Variant) :
  absorbed seed (new caps seed v) [] /\
  MetroHash.variant Lanes (new caps seed v) = v /\
  MetroHash.path Lanes (new caps seed v) = MetroHash.select_path caps v.
Proof. repeat split; simpl; done. Qed.

Lemma absorbed_update (seed : Z) (e : Engine) (data chunk : list Byte.byte) :
  absorbed seed e data ->
  exists e',
    update e chunk = (e', None) /\
    absorbed seed e' (data ++ chunk) /\
    MetroHash.variant Lanes e' = MetroHash.variant Lanes e /\
    MetroHash.path Lanes e' = MetroHash.path Lanes e.
Proof.
  intros (Hcons & Hlen & Hphase). unfold MetroHash.update.
  destruct (consume _ _ (MetroHash.lanes Lanes e) _) as [l r] eqn:Hstep.
  assert (Hdata : consume (MetroHash.variant Lanes e) (MetroHash.path Lanes e)
                    (seed_lanes (MetroHash.variant Lanes e) seed)
                    (data ++ chunk) = (l, r)).
  { by rewrite consume_app, Hcons. }
  destruct (MetroHash.phase Lanes e); [| |done].
  all: eexists; split; [reflexivity|].
  all: repeat split; simpl; try done.
  all: rewrite Hlen, length_app; lia.
Qed.

Lemma absorbed_feed (seed : Z) (chunks : list (list Byte.byte)) (e : Engine)
    (data : list Byte.byte) :
  absorbed seed e data ->
  exists e',
    feed e chunks = (e', []) /\
    absorbed seed e' (data ++ concat chunks) /\
    MetroHash.variant Lanes e' = MetroHash.variant Lanes e /\
    MetroHash.path Lanes e' = MetroHash.path Lanes e.
Proof.
  revert e data. induction chunks as [|c chunks IH]; intros e data He; simpl.
  - exists e. by rewrite app_nil_r.
  - destruct (absorbed_update seed e data c He) as (e1 & -> & He1 & Hv1 & Hp1).
    destruct (IH e1 _ He1) as (e2 & -> & He2 & Hv2 & Hp2).
    exists e2. rewrite <- app_assoc in He2.
    split; [done|]. split; [done|]. split; congruence.
Qed.

Lemma absorbed_finalize (seed : Z) (e : Engine) (data : list Byte.byte) :
  absorbed seed e data ->
  snd (finalize e) =
    inr (finish (MetroHash.variant Lanes e) (MetroHash.path Lanes e)
           (fst (consume (MetroHash.variant Lanes e) (MetroHash.path Lanes e)
                   (seed_lanes (MetroHash.variant Lanes e) seed) data))
           (snd (consume (MetroHash.variant Lanes e) (MetroHash.path Lanes e)
                   (seed_lanes (MetroHash.variant Lanes e) seed) data))
           (Z.of_nat (length data))).
Proof.
  intros (Hcons & Hlen & Hphase). unfold MetroHash.finalize.
  rewrite Hcons, <- Hlen; simpl.
  by destruct (MetroHash.phase Lanes e).
Qed.

(** C5: for every variant, seed and capability set, and every list of
    chunks, feeding the chunks by sequential [update] calls and
    finalizing gives the digest that one [update] with their
    concatenation followed by [finalize] gives; no call reports an
    error. *)
Theorem streaming_equivalence (caps : MetroHash.Capabilities) (seed : Z)
    (v : MetroHash.Variant) (chunks : list (list Byte.byte)) :
  snd (feed (new caps seed v) chunks) = [] /\
  snd (update (new caps seed v) (concat chunks)) = None /\
  exists digest,
    snd (finalize (fst (feed (new caps seed v) chunks))) = inr digest /\
    snd (finalize (fst (update (new caps seed v) (concat chunks))))
    = inr digest.
Proof.
  destruct (absorbed_new caps seed v) as (Hnew & Hv & Hp).
  destruct (absorbed_feed seed chunks _ [] Hnew) as (e1 & -> & He1 & Hv1 & Hp1).
  destruct (absorbed_update seed _ [] (concat chunks) Hnew)
    as (e2 & -> & He2 & Hv2 & Hp2).
  simpl in *. repeat split. eexists. split.
  - apply (absorbed_finalize seed e1 _ He1).
  - rewrite (absorbed_finalize seed e2 _ He2). congruence.
Qed.

(** C6: once [finalize] has produced a digest, every [update] reports
    the misuse error and leaves the engine as it is, however often it is
    tried; only after a [reset] is an [update] accepted again. *)
Theorem update_after_finalize_rejected (e e' : Engine)
    (digest : list Byte.byte) :
  finalize e = (e', inr digest) ->
  (forall chunk,
     update e' chunk = (e', Some MetroHash.UpdateAfterFinalize)) /\
  (forall chunks,
     feed e' chunks
     = (e', replicate (length chunks) MetroHash.UpdateAfterFinalize)) /\
  (forall new_seed chunk, snd (update (reset e' new_seed) chunk) = None).
Proof.
  intros Hfin.
  assert (Hphase : MetroHash.phase Lanes e' = MetroHash.Finalized).
  { unfold MetroHash.finalize in Hfin.
    destruct (MetroHash.phase Lanes e);
      [injection Hfin as <- _; reflexivity ..| discriminate Hfin]. }
  assert (Hupd : forall chunk,
            update e' chunk = (e', Some MetroHash.UpdateAfterFinalize)).
  { intros chunk. unfold MetroHash.update. by rewrite Hphase. }
  repeat split; [done| |].
  - intros chunks. induction chunks as [|c chunks IH]; simpl; [done|].
    by rewrite Hupd, IH.
  - intros new_seed chunk. unfold MetroHash.update, MetroHash.reset; simpl.
    by destruct (consume _ _ _ _).
Qed.

(** The dispatcher of the binary built with every accelerated path is
    the selection policy [new] uses. *)
Lemma select_path_dispatch (caps : MetroHash.Capabilities)
    (v : MetroHash.Variant) :
  MetroHash.select_path caps v
  = MetroHash.dispatch MetroHash.accelerated_build caps v.
Proof. by destruct v. Qed.





End EngineFacts.

Example toy_fallback :
  MetroHash.hash_built Toy.Lanes Toy.seed_lanes Toy.absorb Toy.finish
    MetroHash.accelerated_build Toy.caps (Toy.zeros 40) 0
    MetroHash.Hash128Accelerated
  = inr (Toy.zeros 40).
Proof. reflexivity. Qed.

Lemma update_after_finalize_rejected_witness :
  MetroHash.finalize Toy.Lanes Toy.finish Toy.fed
  = (Toy.finalized, inr (Toy.zeros 40)) /\
  MetroHash.update Toy.Lanes Toy.absorb Toy.finalized (Toy.zeros 3)
  = (Toy.finalized, Some MetroHash.UpdateAfterFinalize).
Proof.
  assert (Hfin : MetroHash.finalize Toy.Lanes Toy.finish Toy.fed
                 = (Toy.finalized, inr (Toy.zeros 40)))
    by (vm_compute; reflexivity).
  split; [exact Hfin|].
  exact (proj1 (update_after_finalize_rejected Toy.Lanes Toy.seed_lanes
                  Toy.absorb Toy.finish Toy.fed Toy.finalized
                  (Toy.zeros 40) Hfin) (Toy.zeros 3)).
Defined.

Example toy_streaming :
  snd (MetroHash.finalize Toy.Lanes Toy.finish
         (fst (MetroHash.feed Toy.Lanes Toy.absorb Toy.fresh
                 [Toy.zeros 5; Toy.zeros 30; []; Toy.zeros 40])))
  = inr (Toy.zeros 75).
Proof. reflexivity. Qed.

(** ** What the script hands to setuptools *)

(** X1: the script reaches the [setup] call exactly when the imports
    of lines 3 to 11 succeed, the import of line 22 does not raise
    something other than [ImportError], and every write to standard
    output on the way succeeds; when it stops, it is with the exception
    the host raised there. The script never stops on its own account:
    no name is read before it is bound, and a failing capability query
    or an unreadable README stops nothing by itself. *)
Theorem only_the_host_stops_the_script (h : Host) :
  is_ok (run h)
  = is_ok (imports h) && cython_passes h && stdout_ok h (prints_needed h) /\
  forall e, run h = Raise e -> stopped_by h e.
Proof.
  split; [apply is_ok_run|].
  intros e Hrun. pose proof (run_outcome h) as Hout.
  rewrite Hrun in Hout. apply Hout.
Qed.

Example broken_cython_stops :
  run broken_cython_host = Raise (OtherException "AttributeError" "Cython").
Proof. reflexivity. Qed.

(** X2: on a completed run the import of line 22 either succeeded or
    raised [ImportError]; [USE_CYTHON] says which, [SRC_EXT] is ".pyx"
    with Cython and ".cpp" without, and [CMDCLASS] maps "bdist_wheel" to
    [bdist_wheel_abi3], "build_ext" to Cython's class exactly when Cython
    was imported, and nothing else. *)
Theorem cython_decides_source_and_commands (h : Host) (st : State) :
  run h = Ok st ->
  (cython_import h = Ok () \/ exists m, cython_import h = Raise (ImportError m)) /\
  name st "USE_CYTHON" = Ok (VBool (uses_cython h)) /\
  name st "SRC_EXT" = Ok (VStr (if uses_cython h then ".pyx" else ".cpp")) /\
  exists d,
    name st "CMDCLASS" = Ok (VDict d) /\
    d !! "bdist_wheel" = Some "bdist_wheel_abi3" /\
    d !! "build_ext" =
      (if uses_cython h then Some "Cython.Distutils.build_ext" else None) /\
    forall k, k <> "bdist_wheel" -> k <> "build_ext" -> d !! k = None.
Proof.
  intros Hrun. pose proof (run_ok_packaged h st Hrun) as Hst.
  destruct (run_ok_completed h st Hrun) as [Hpass _].
  split.
  { unfold cython_passes in Hpass.
    destruct (cython_import h) as [[]|[m|c m]]; [by left | right; eauto | done]. }
  split; [apply Hst|]. split; [apply Hst|].
  exists (cmdclass h). split; [apply Hst|].
  unfold cmdclass. destruct (uses_cython h).
  - split; [done|]. split; [done|]. intros k Hk1 Hk2.
    rewrite lookup_insert_ne by done. by rewrite lookup_singleton_ne.
  - split; [done|]. split; [done|]. intros k Hk1 Hk2.
    by rewrite lookup_singleton_ne.
Qed.

Lemma cython_decides_source_and_commands_witness :
  run windows_host = Ok (final_state windows_host) /\
  name (final_state windows_host) "SRC_EXT" = Ok (VStr ".pyx") /\
  run linux_host = Ok (final_state linux_host) /\
  name (final_state linux_host) "SRC_EXT" = Ok (VStr ".cpp").
Proof.
  assert (Hwin : run windows_host = Ok (final_state windows_host))
    by (vm_compute; reflexivity).
  assert (Hlin : run linux_host = Ok (final_state linux_host))
    by (vm_compute; reflexivity).
  split; [exact Hwin|]. split.
  - exact (proj1 (proj2 (proj2
      (cython_decides_source_and_commands windows_host _ Hwin)))).
  - split; [exact Hlin|].
    exact (proj1 (proj2 (proj2
      (cython_decides_source_and_commands linux_host _ Hlin)))).
Defined.

(** X3: whether the import of line 22 succeeds or raises [ImportError]
    makes no difference to the compile flags. *)
Theorem cython_leaves_flags (h : Host) (m : string) :
  built_flags (with_cython h (Ok ()))
  = built_flags (with_cython h (Raise (ImportError m))).
Proof. rewrite !built_flags_spec. reflexivity. Qed.

(** X4: a completed run has built exactly one [Extension]; its
    [extra_compile_args] are the final [CXXFLAGS], its sources are
    [CXXSOURCES] followed by "src/metrohash" with the extension
    [SRC_EXT], its [depends] are [CXXHEADERS], and it is this extension
    and the final [CMDCLASS] that the [setup] call receives. *)
Theorem extension_gets_the_flags (h : Host) (st : State) :
  run h = Ok st ->
  exists flags suffix ext call,
    name st "CXXFLAGS" = Ok (VList flags) /\
    name st "SRC_EXT" = Ok (VStr suffix) /\
    name st "EXT_MODULES" = Ok (VExts [ext]) /\
    extra_compile_args ext = flags /\
    ext_sources ext
    = (CXXSOURCES ++ [String.append "src/metrohash" suffix])%list /\
    ext_depends ext = CXXHEADERS /\
    py_limited_api ext = true /\
    setup_call st = Some call /\
    kw_ext_modules call = [ext] /\
    name st "CMDCLASS" = Ok (VDict (kw_cmdclass call)).
Proof.
  intros Hrun. pose proof (run_ok_packaged h st Hrun) as Hst.
  exists (expected_flags h), (src_ext h), (the_extension h),
    (the_setup_call h).
  repeat split; try apply Hst; reflexivity.
Qed.

Lemma extension_gets_the_flags_witness :
  run windows_host = Ok (final_state windows_host) /\
  exists flags suffix ext call,
    name (final_state windows_host) "CXXFLAGS" = Ok (VList flags) /\
    name (final_state windows_host) "SRC_EXT" = Ok (VStr suffix) /\
    name (final_state windows_host) "EXT_MODULES" = Ok (VExts [ext]) /\
    extra_compile_args ext = flags /\
    ext_sources ext
    = (CXXSOURCES ++ [String.append "src/metrohash" suffix])%list /\
    ext_depends ext = CXXHEADERS /\
    py_limited_api ext = true /\
    setup_call (final_state windows_host) = Some call /\
    kw_ext_modules call = [ext] /\
    name (final_state windows_host) "CMDCLASS" = Ok (VDict (kw_cmdclass call)).
Proof.
  assert (Hwin : run windows_host = Ok (final_state windows_host))
    by (vm_compute; reflexivity).
  split; [exact Hwin|].
  exact (extension_gets_the_flags windows_host _ Hwin).
Defined.

(** X5: the [setup] call of a completed run gets as [long_description]
    the decoded contents of README.md beside the script when that file
    can be read and decoded as UTF-8, and the default literal otherwise;
    its [download_url] is [URL], "/tarball/master/" and [VERSION]. *)
Theorem setup_gets_the_readme (h : Host) (st : State) :
  run h = Ok st ->
  exists call,
    setup_call st = Some call /\
    kw_long_description call =
      match open_rb h (path_join h (module_dirname h) "README.md") with
      | Ok contents =>
          match bytes_decode h contents "utf-8" with
          | Ok text => text
          | Raise _ => _long_desc
          end
      | Raise _ => _long_desc
      end /\
    kw_version call = "0.3.4" /\
    kw_download_url call
    = "https://github.com/escherba/python-metrohash/tarball/master/0.3.4".
Proof.
  intros Hrun. pose proof (run_ok_packaged h st Hrun) as Hst.
  exists (the_setup_call h). split; [apply Hst|].
  split; [|by split].
  unfold the_setup_call, long_description, get_long_description; simpl.
  destruct (open_rb h _) as [contents|e]; simpl; [|done].
  by destruct (bytes_decode h contents "utf-8").
Qed.

Lemma setup_gets_the_readme_witness :
  run linux_host = Ok (final_state linux_host) /\
  run bare_host = Ok (final_state bare_host) /\
  (exists call, setup_call (final_state linux_host) = Some call /\
                kw_long_description call = "# MetroHash") /\
  (exists call, setup_call (final_state bare_host) = Some call /\
                kw_long_description call = _long_desc).
Proof.
  assert (Hlin : run linux_host = Ok (final_state linux_host))
    by (vm_compute; reflexivity).
  assert (Hbare : run bare_host = Ok (final_state bare_host))
    by (vm_compute; reflexivity).
  split; [exact Hlin|]. split; [exact Hbare|]. split.
  - destruct (setup_gets_the_readme linux_host _ Hlin)
      as (call & Hcall & Hdescr & _).
    exists call. split; [exact Hcall|]. rewrite Hdescr. reflexivity.
  - destruct (setup_gets_the_readme bare_host _ Hbare)
      as (call & Hcall & Hdescr & _).
    exists call. split; [exact Hcall|]. rewrite Hdescr. reflexivity.
Defined.

(** ** The shape of the compile flags *)

(** X6: the compile flags of a completed run all have the style of the
    system they were chosen for: on [nt] every flag starts with "/",
    elsewhere every flag starts with "-". MSVC and GCC options are never
    mixed. *)
Theorem flags_have_one_style (h : Host) (st : State) :
  run h = Ok st ->
  exists sys flags,
    name st "SYSTEM" = Ok (VStr sys) /\
    name st "CXXFLAGS" = Ok (VList flags) /\
    Forall (fun f => startswith f (flag_prefix sys) = true) flags.
Proof.
  intros Hrun. destruct (run_ok_completed h st Hrun) as [_ Hst].
  exists (os_name h), (expected_flags h).
  split; [apply Hst|]. split; [apply Hst|].
  unfold expected_flags, sse42_flags, aes_flags, accel_flag, base_flags,
    flag_prefix.
  destruct (is_nt (os_name h)),
    (accel (cpu_has h "sse4_2") _ _), (accel (cpu_has h "aes") _ _);
    simpl; repeat constructor.
Qed.

Lemma flags_have_one_style_witness :
  run windows_host = Ok (final_state windows_host) /\
  exists sys flags,
    name (final_state windows_host) "SYSTEM" = Ok (VStr sys) /\
    name (final_state windows_host) "CXXFLAGS" = Ok (VList flags) /\
    Forall (fun f => startswith f (flag_prefix sys) = true) flags.
Proof.
  assert (Hwin : run windows_host = Ok (final_state windows_host))
    by (vm_compute; reflexivity).
  split; [exact Hwin|].
  exact (flags_have_one_style windows_host _ Hwin).
Defined.

Example windows_flags :
  built_flags windows_host = Some ["/O2"; "/D__SSE4_2__"; "/D__AES__"].
Proof. reflexivity. Qed.

(** X7: the compile flags of a completed run are the optimisation flags
    of the system, then the SSE4.2 flag if that path is enabled, then
    the AES flag if that path is enabled, in this order; no flag occurs
    twice, and there are between one and five of them. *)
Theorem flags_in_order (h : Host) (st : State) :
  run h = Ok st ->
  exists flags,
    name st "CXXFLAGS" = Ok (VList flags) /\
    flags = (base_flags (os_name h) ++ sse42_flags h ++ aes_flags h)%list /\
    NoDup flags /\
    (1 <= length flags <= 5)%nat.
Proof.
  intros Hrun. destruct (run_ok_completed h st Hrun) as [_ Hst].
  exists (expected_flags h). split; [apply Hst|].
  unfold expected_flags, sse42_flags, aes_flags, accel_flag, base_flags.
  destruct (is_nt (os_name h)),
    (accel (cpu_has h "sse4_2") _ _), (accel (cpu_has h "aes") _ _);
    simpl; (split; [reflexivity|]); (split; [|lia]);
    apply (bool_decide_unpack _); vm_compute; exact I.
Qed.

Lemma flags_in_order_witness :
  run linux_host = Ok (final_state linux_host) /\
  exists flags,
    name (final_state linux_host) "CXXFLAGS" = Ok (VList flags) /\
    flags = (base_flags (os_name linux_host) ++ sse42_flags linux_host
             ++ aes_flags linux_host)%list /\
    NoDup flags /\
    (1 <= length flags <= 5)%nat.
Proof.
  assert (Hlin : run linux_host = Ok (final_state linux_host))
    by (vm_compute; reflexivity).
  split; [exact Hlin|].
  exact (flags_in_order linux_host _ Hlin).
Defined.

(** X8: when the environment sets AUDITWHEEL_ARCH, its value is the
    target architecture and [platform.machine()] has no influence on the
    compile flags. *)
Theorem auditwheel_arch_overrides (h : Host) (arch : string) :
  os_environ h !! "AUDITWHEEL_ARCH" = Some arch ->
  (forall st, run h = Ok st -> name st "TARGET_ARCH" = Ok (VStr arch)) /\
  (forall machine, built_flags (with_machine h machine) = built_flags h).
Proof.
  intros Henv. split.
  - intros st Hrun. destruct (run_ok_completed h st Hrun) as [_ Hst].
    rewrite (done_TARGET_ARCH _ _ Hst). unfold target_arch.
    by rewrite Henv.
  - intros machine. rewrite !built_flags_spec.
    assert (Harch : target_arch (with_machine h machine) = target_arch h).
    { unfold target_arch; simpl. by rewrite Henv. }
    unfold completes, prints_needed, sse42_enabled, aes_enabled,
      expected_flags, sse42_flags, aes_flags.
    by rewrite Harch.
Qed.

Lemma auditwheel_arch_overrides_witness :
  os_environ cross_host !! "AUDITWHEEL_ARCH" = Some "aarch64" /\
  built_flags (with_machine cross_host "ppc64le") = built_flags cross_host.
Proof.
  assert (Henv : os_environ cross_host !! "AUDITWHEEL_ARCH" = Some "aarch64")
    by (vm_compute; reflexivity).
  split; [exact Henv|].
  exact (proj2 (auditwheel_arch_overrides cross_host "aarch64" Henv)
           "ppc64le").
Defined.

(** X9: [bdist_wheel_abi3.get_tag] never changes the platform tag, any
    python tag it returns that starts with "cp" is "cp36" with ABI tag
    "abi3", and applying it to its own result changes nothing. *)
Theorem get_tag_settles (h : Host) :
  (get_tag h).2 = (super_get_tag h).2 /\
  (startswith (get_tag h).1.1 "cp" = true ->
   (get_tag h).1 = ("cp36", "abi3")) /\
  get_tag (with_super_tag h (get_tag h)) = get_tag h.
Proof.
  unfold get_tag, with_super_tag. cbn [super_get_tag].
  destruct (super_get_tag h) as [[python abi] plat].
  destruct (startswith python "cp") eqn:Hcp; cbn [fst snd].
  - split; [reflexivity|]. split; reflexivity.
  - rewrite Hcp. split; [reflexivity|].
    split; [intros; discriminate | reflexivity].
Qed.

(** X10: a completed run consults its host in one fixed order, whatever
    the answers are: the capability query, the Cython import, [os.name],
    [struct.calcsize], [os.environ] (for the listing of line 65),
    [platform.machine()], [os.environ] again (line 82), and last, once
    every flag is decided, the README file. *)
Theorem host_consulted_in_order (h : Host) (st : State) :
  run h = Ok st ->
  asked st =
    [AskCpuinfo; AskCython; AskOsName; AskCalcsize; AskEnviron;
     AskMachine; AskEnviron; AskFile].
Proof.
  intros Hrun. destruct (run_ok_completed h st Hrun) as [_ Hst].
  apply Hst.
Qed.

Lemma host_consulted_in_order_witness :
  run bare_host = Ok (final_state bare_host) /\
  asked (final_state bare_host) =
    [AskCpuinfo; AskCython; AskOsName; AskCalcsize; AskEnviron;
     AskMachine; AskEnviron; AskFile].
Proof.
  assert (Hbare : run bare_host = Ok (final_state bare_host))
    by (vm_compute; reflexivity).
  split; [exact Hbare|].
  exact (host_consulted_in_order bare_host _ Hbare).
Defined.

(** X11: on a completed run the SSE4.2 flag (in either spelling) is
    among the compile flags exactly when the capability query of the
    build returned a list containing "sse4_2", [TARGET_ARCH] is "x86_64"
    and [BITS] is 64; likewise the AES flag and "aes". *)
Theorem acceleration_flags_follow_the_query (h : Host) (st : State) :
  run h = Ok st ->
  exists flags,
    name st "CXXFLAGS" = Ok (VList flags) /\
    (("-msse4.2" ∈ flags \/ "/D__SSE4_2__" ∈ flags) <->
     (exists reported,
        cpuinfo_flags h = Ok reported /\ "sse4_2" ∈ reported) /\
     name st "TARGET_ARCH" = Ok (VStr "x86_64") /\
     name st "BITS" = Ok (VInt 64)) /\
    (("-maes" ∈ flags \/ "/D__AES__" ∈ flags) <->
     (exists reported,
        cpuinfo_flags h = Ok reported /\ "aes" ∈ reported) /\
     name st "TARGET_ARCH" = Ok (VStr "x86_64") /\
     name st "BITS" = Ok (VInt 64)).
Proof.
  intros Hrun. destruct (run_ok_completed h st Hrun) as [_ Hst].
  exists (expected_flags h). split; [apply Hst|].
  rewrite (done_TARGET_ARCH _ _ Hst), (done_BITS _ _ Hst).
  assert (Hacc : forall x,
            accel (cpu_has h x) (target_arch h) (get_system_bits h) = true <->
            (exists reported, cpuinfo_flags h = Ok reported /\ x ∈ reported) /\
            Ok (VStr (target_arch h)) = Ok (VStr "x86_64") /\
            Ok (VInt (get_system_bits h)) = Ok (VInt 64)).
  { intros x. unfold accel, cpu_has. rewrite !andb_true_iff.
    rewrite String.eqb_eq, Z.eqb_eq.
    destruct (cpuinfo_flags h) as [reported|e].
    - rewrite bool_decide_eq_true. split.
      + intros [[Hin ->] ->]. eauto.
      + intros ([r [[= <-] Hin]] & [= ->] & [= ->]). done.
    - split; [by intros [[? _] _] | by intros ([r [? _]] & _)]. }
  rewrite <- !Hacc, <- sse42_in_expected, <- aes_in_expected.
  rewrite !orb_true_iff, !bool_decide_eq_true. done.
Qed.

Lemma acceleration_flags_follow_the_query_witness :
  run linux_host = Ok (final_state linux_host) /\
  exists flags,
    name (final_state linux_host) "CXXFLAGS" = Ok (VList flags) /\
    ("-msse4.2" ∈ flags \/ "/D__SSE4_2__" ∈ flags) /\
    ("-maes" ∈ flags \/ "/D__AES__" ∈ flags).
Proof.
  assert (Hlin : run linux_host = Ok (final_state linux_host))
    by (vm_compute; reflexivity).
  split; [exact Hlin|].
  destruct (acceleration_flags_follow_the_query linux_host _ Hlin)
    as (flags & Hflags & Hsse & Haes).
  exists flags. split; [exact Hflags|].
  split; [apply Hsse | apply Haes].
  all: split; [|split; vm_compute; reflexivity].
  all: exists ["fpu"; "sse4_2"; "aes"]; split; [reflexivity|].
  all: apply (bool_decide_unpack _); vm_compute; exact I.
Defined.
